(** * MediaGoblin STL/OBJ model loader

    A shallow embedding of [mediagoblin/media_types/stl/model_loader.py]
    (Python 2): the [ThreeDee] statistics pass, the [ObjModel] and
    [BinaryStlModel] loaders and [auto_detect], followed by the properties
    of the loader's specification.

    Conventions of the embedding.
    - A Python 2 [str] is a byte string: [String.string].
    - A Python [float] is an IEEE-754 binary64: the primitive [float].
      A Python [int]/[long] is unbounded: [Z].  [float(str)] is the
      correctly rounded conversion of CPython 2.7.
    - A file object is a record with its contents, its position and the
      list of the operations performed on it so far.  [for line in fileob]
      hands out the lines from the current position on; when the loop ends
      the position is the end of the file.  (When the loop is left by an
      exception the embedding leaves the position after the offending
      line; nothing reads the file after that.)
    - A function that can raise returns a [result]; a function that also
      touches the file object lives in the monad [M].
    - [MemoryError] has one source, [range(triangle_count)], which in
      Python 2 builds the whole list: it is raised when the count exceeds
      the parameter [mem_limit].  Counts fit a machine word (64-bit
      build), so [range] raises nothing else. *)

From Stdlib Require Import ZArith String Ascii List Bool Lia.
From Stdlib Require Import PrimFloat FloatOps Uint63.
From stdpp Require Import base list.
Import ListNotations.

#[local] Open Scope string_scope.
#[local] Open Scope Z_scope.

(** ** Exceptions and results *)

Inductive exn : Type :=
  | ThreeDeeParseError (msg : string)   (* the module's own exception class *)
  | IndexError                          (* tuple / string index out of range *)
  | ValueError                          (* float() on a non-numeric string *)
  | StructError                         (* struct.error: wrong buffer length *)
  | MemoryError                         (* range() too large to allocate *)
  | ZeroDivisionError
  | TypeError                           (* arithmetic on None *)
  | AssertionError.

Inductive result (A : Type) : Type :=
  | Ok (a : A)
  | Raise (e : exn).
Arguments Ok {A} a.
Arguments Raise {A} e.

Definition rbind {A B} (r : result A) (k : A -> result B) : result B :=
  match r with
  | Ok a => k a
  | Raise e => Raise e
  end.

Declare Scope res_scope.
Delimit Scope res_scope with res.
Notation "'let?' x ':=' r 'in' k" := (rbind r (fun x => k))
  (at level 10, x pattern, r at level 100, k at level 200) : res_scope.

Definition is_ok {A} (r : result A) : bool :=
  match r with Ok _ => true | Raise _ => false end.

(** [map(f, xs)] of Python 2: eager, left to right, the first exception
    aborts the whole map. *)
Fixpoint py_map {A B} (f : A -> result B) (xs : list A) : result (list B) :=
  match xs with
  | [] => Ok []
  | x :: xs' =>
      (let? y := f x in
       let? ys := py_map f xs' in
       Ok (y :: ys))%res
  end.

(** ** Byte strings *)

Module PyStr.

Fixpoint take (n : nat) (s : string) : string :=
  match n, s with
  | S n', String c r => String c (take n' r)
  | _, _ => EmptyString
  end.

Fixpoint drop (n : nat) (s : string) : string :=
  match n, s with
  | S n', String _ r => drop n' r
  | _, _ => s
  end.

(** The characters [str.strip()] and [float()] treat as white space. *)
Definition isspace (c : ascii) : bool :=
  match nat_of_ascii c with
  | 9%nat | 10%nat | 11%nat | 12%nat | 13%nat | 32%nat => true
  | _ => false
  end.

Fixpoint lstrip (s : string) : string :=
  match s with
  | EmptyString => EmptyString
  | String c r => if isspace c then lstrip r else s
  end.

Fixpoint rstrip (s : string) : string :=
  match s with
  | EmptyString => EmptyString
  | String c r =>
      match rstrip r with
      | EmptyString => if isspace c then EmptyString else String c EmptyString
      | r' => String c r'
      end
  end.

Definition strip (s : string) : string := rstrip (lstrip s).

(** [s.split(sep)] for a one-character separator: every occurrence
    splits, so consecutive separators give empty fields. *)
Fixpoint split (sep : ascii) (s : string) : list string :=
  match s with
  | EmptyString => [EmptyString]
  | String c r =>
      if Ascii.eqb c sep then EmptyString :: split sep r
      else match split sep r with
           | [] => [String c EmptyString]
           | t :: ts => String c t :: ts
           end
  end.

(** The lines a file iterator yields for the text [s]: each line keeps
    its newline, the last line may lack one, and no line is empty. *)
Fixpoint readlines (s : string) : list string :=
  match s with
  | EmptyString => []
  | String c r =>
      if Ascii.eqb c "010"%char then String c EmptyString :: readlines r
      else match readlines r with
           | [] => [String c EmptyString]
           | l :: ls => String c l :: ls
           end
  end.

Definition lower (c : ascii) : ascii :=
  let n := nat_of_ascii c in
  if ((65 <=? n)%nat && (n <=? 90)%nat)%bool then ascii_of_nat (n + 32) else c.

Fixpoint lowercase (s : string) : string :=
  match s with
  | EmptyString => EmptyString
  | String c r => String (lower c) (lowercase r)
  end.

End PyStr.

(** ** Numbers *)

(** *** Python floats

    [float_of_ratio p q] is the binary64 nearest to [p / q] (ties to even,
    overflow to infinity) for [0 <= p] and [0 < q]: the conversion CPython
    performs both for [float(str)] and for [float(int)]. *)

Module PyFloat.

(** [p / q] scaled by [2^-e], as a quotient and the two sides of the
    comparison [2 * remainder ? denominator]. *)
Definition scaled (p q e : Z) : Z * Z :=
  if 0 <=? e then (p, q * 2 ^ e) else (p * 2 ^ (- e), q).

Definition float_of_ratio (p q : Z) : float :=
  if p <=? 0 then 0%float
  else
    let e0 := Z.log2 p - Z.log2 q - 52 in
    let '(n0, d0) := scaled p q e0 in
    let e1 := if n0 / d0 <? 2 ^ 52 then e0 - 1 else e0 in
    let e := Z.max e1 (-1074) in
    let '(n, d) := scaled p q e in
    let m := n / d in
    let r := n mod d in
    let up := (d <? 2 * r) || ((d =? 2 * r) && Z.odd m) in
    let m' := if up then m + 1 else m in
    Z.ldexp (PrimFloat.of_uint63 (Uint63.of_Z m')) e.

Definition of_Z (z : Z) : float :=
  if z <? 0 then (- float_of_ratio (- z) 1)%float else float_of_ratio z 1.

Definition is_digit (c : ascii) : bool :=
  let n := nat_of_ascii c in ((48 <=? n)%nat && (n <=? 57)%nat)%bool.

(** The longest prefix of decimal digits, as (value, count, rest). *)
Fixpoint digits (acc : Z) (cnt : Z) (s : string) : Z * Z * string :=
  match s with
  | String c r =>
      if is_digit c
      then digits (10 * acc + (Z.of_nat (nat_of_ascii c) - 48)) (cnt + 1) r
      else (acc, cnt, s)
  | EmptyString => (acc, cnt, s)
  end.

Definition sign (s : string) : bool * string :=
  match s with
  | String "-" r => (true, r)
  | String "+" r => (false, r)
  | _ => (false, s)
  end.

Definition with_sign (neg : bool) (f : float) : float :=
  if neg then (- f)%float else f.

(** The optional exponent part: [None] when it is malformed. *)
Definition exponent (s : string) : option Z :=
  match s with
  | EmptyString => Some 0
  | String c r =>
      if Ascii.eqb (PyStr.lower c) "e"%char then
        let '(neg, r1) := sign r in
        match digits 0 0 r1 with
        | (v, cnt, EmptyString) =>
            if 0 <? cnt then Some (if neg then - v else v) else None
        | _ => None
        end
      else None
  end.

Definition decimal (s : string) : option float :=
  let '(ip, n1, s1) := digits 0 0 s in
  let '(m, n2, s2) :=
    match s1 with
    | String "." r => digits ip 0 r
    | _ => (ip, 0, s1)
    end in
  if n1 + n2 <=? 0 then None
  else match exponent s2 with
       | None => None
       | Some ex =>
           let e10 := ex - n2 in
           Some (if 0 <=? e10 then float_of_ratio (m * 10 ^ e10) 1
                 else float_of_ratio m (10 ^ (- e10)))
       end.

(** The builtin [float(s)] of Python 2.7 on a [str]. *)
Definition float (s : string) : result PrimFloat.float :=
  let '(neg, body) := sign (PyStr.strip s) in
  let low := PyStr.lowercase body in
  if String.eqb low "inf" || String.eqb low "infinity"
  then Ok (with_sign neg infinity)
  else if String.eqb low "nan" then Ok nan
  else match decimal body with
       | Some f => Ok (with_sign neg f)
       | None => Raise ValueError
       end.

End PyFloat.

(** *** The arithmetic the statistics pass performs

    [ThreeDee.__init__] is written once and run on whatever numbers the
    loader produced: Python floats from [ObjModel], Python ints from
    [BinaryStlModel].  The operations it applies are collected in a class
    with one instance per number type.  [py_zero] is the literal [0] the
    accumulators start from, already coerced to the number type ([0 + x] on
    a float [x] is [0.0 + x]). *)

Class PyNumber (A : Type) : Type := {
  py_zero : A;
  py_add : A -> A -> A;
  py_sub : A -> A -> A;
  py_abs : A -> A;
  py_bool : A -> bool;            (* truth value: [bool(x)] *)
  py_lt : A -> A -> bool;
  py_gt : A -> A -> bool;
  py_div_len : A -> nat -> result A  (* [x / n] for [n = len(...)] *)
}.

(** Python 2 ints: exact, [/] is floor division. *)
#[export] Instance PyNumber_int : PyNumber Z := {
  py_zero := 0;
  py_add := Z.add;
  py_sub := Z.sub;
  py_abs := Z.abs;
  py_bool := fun x => negb (x =? 0);
  py_lt := Z.ltb;
  py_gt := Z.gtb;
  py_div_len := fun x n =>
    if Nat.eqb n 0 then Raise ZeroDivisionError else Ok (x / Z.of_nat n)
}.

(** Python floats: IEEE-754 binary64; [0.0], [-0.0] are false, nan is
    true; comparisons with nan are false. *)
#[export] Instance PyNumber_float : PyNumber float := {
  py_zero := 0%float;
  py_add := PrimFloat.add;
  py_sub := PrimFloat.sub;
  py_abs := PrimFloat.abs;
  py_bool := fun x => negb (PrimFloat.eqb x 0%float);
  py_lt := PrimFloat.ltb;
  py_gt := fun x y => PrimFloat.ltb y x;
  py_div_len := fun x n =>
    if Nat.eqb n 0 then Raise ZeroDivisionError
    else Ok (PrimFloat.div x (PyFloat.of_Z (Z.of_nat n)))
}.

(** Truth value and Python 2 ordering of a slot that holds [None] or a
    number: [None] is false and sorts below every number. *)
Definition opt_bool {A} `{PyNumber A} (o : option A) : bool :=
  match o with
  | None => false
  | Some x => py_bool x
  end.

Definition opt_gt {A} `{PyNumber A} (o : option A) (y : A) : bool :=
  match o with
  | None => false
  | Some x => py_gt x y
  end.

Definition opt_lt {A} `{PyNumber A} (o : option A) (y : A) : bool :=
  match o with
  | None => true
  | Some x => py_lt x y
  end.

(** ** File objects *)

Inductive io_op : Type :=
  | OpSeek (offset : nat)      (* fileob.seek(offset) *)
  | OpRead (size : nat)        (* fileob.read(size) *)
  | OpNext.                    (* one step of [for line in fileob] *)

Record fileob : Type := mkFile {
  data : string;       (* the whole contents *)
  pos : nat;           (* current position *)
  ops : list io_op     (* operations performed so far, oldest first *)
}.

Definition open_file (s : string) : fileob := mkFile s 0 [].

(** What is left to read from the current position. *)
Definition remaining (f : fileob) : string := PyStr.drop (pos f) (data f).

(** Computations on a file object that may raise. *)
Definition M (A : Type) : Type := fileob -> result A * fileob.

Definition ret {A} (a : A) : M A := fun f => (Ok a, f).
Definition raise {A} (e : exn) : M A := fun f => (Raise e, f).
Definition bind {A B} (m : M A) (k : A -> M B) : M B :=
  fun f => match m f with
           | (Ok a, f') => k a f'
           | (Raise e, f') => (Raise e, f')
           end.
Definition lift {A} (r : result A) : M A := fun f => (r, f).

Declare Scope io_scope.
Delimit Scope io_scope with io.
Notation "'let!' x ':=' m 'in' k" := (bind m (fun x => k))
  (at level 10, x pattern, m at level 100, k at level 200) : io_scope.
Notation "'do!' m 'in' k" := (bind m (fun _ => k))
  (at level 10, m at level 100, k at level 200) : io_scope.

(** [try: return m  except <handled>: pass] followed by [k]: a handled
    exception continues with [k] on the file object as [m] left it. *)
Definition try_except {A} (m : M A) (handled : exn -> bool) (k : M A) : M A :=
  fun f => match m f with
           | (Ok a, f') => (Ok a, f')
           | (Raise e, f') => if handled e then k f' else (Raise e, f')
           end.

Definition seek (offset : nat) : M unit :=
  fun f => (Ok tt, mkFile (data f) offset (ops f ++ [OpSeek offset])).

(** [fileob.read(size)]: at most [size] bytes, fewer at the end of the
    file, none beyond it. *)
Definition read (size : nat) : M string :=
  fun f => let s := PyStr.take size (remaining f) in
           (Ok s, mkFile (data f) (pos f + String.length s) (ops f ++ [OpRead size])).

(** ** Python lists, tuples and loops *)

(** [l[i]] and [l[i] = x]: both raise [IndexError] out of range. *)
Definition getitem {T} (l : list T) (i : nat) : result T :=
  match l !! i with
  | Some x => Ok x
  | None => Raise IndexError
  end.

Definition setitem {T} (l : list T) (i : nat) (x : T) : result (list T) :=
  if (i <? length l)%nat then Ok (<[i:=x]> l) else Raise IndexError.

(** [for x in xs: body], the loop state threaded through [body]; an
    exception in the body leaves the loop. *)
Fixpoint for_each {T S} (xs : list T) (body : T -> S -> result S) (s : S)
  : result S :=
  match xs with
  | [] => Ok s
  | x :: xs' => (let? s' := body x s in for_each xs' body s')%res
  end.

(** The same on a file object. *)
Fixpoint for_each_io {T S} (xs : list T) (body : T -> S -> M S) (s : S) : M S :=
  match xs with
  | [] => ret s
  | x :: xs' => (let! s' := body x s in for_each_io xs' body s')%io
  end.

(** [range(3)] *)
Definition range3 : list nat := [0; 1; 2]%nat.

(** ** class ThreeDee *)

Record ThreeDee (A : Type) : Type := mkThreeDee {
  verts : list (list A);
  average : list A;
  min : list (option A);
  max : list (option A);
  width : A;
  depth : A;
  height : A
}.
Arguments mkThreeDee {A}.
Arguments verts {A}.
Arguments average {A}.
Arguments min {A}.
Arguments max {A}.
Arguments width {A}.
Arguments depth {A}.
Arguments height {A}.

Section ThreeDee.
Context {A : Type} `{PyNumber A}.

Definition set_average (self : ThreeDee A) (v : list A) : ThreeDee A :=
  mkThreeDee (verts self) v (min self) (max self)
             (width self) (depth self) (height self).

Definition set_min (self : ThreeDee A) (v : list (option A)) : ThreeDee A :=
  mkThreeDee (verts self) (average self) v (max self)
             (width self) (depth self) (height self).

Definition set_max (self : ThreeDee A) (v : list (option A)) : ThreeDee A :=
  mkThreeDee (verts self) (average self) (min self) v
             (width self) (depth self) (height self).

(** The body of the inner loop of [__init__] (lines 47-56) for one
    [vector] and one axis [i]. *)
Definition visit (vector : list A) (i : nat) (self : ThreeDee A)
  : result (ThreeDee A) :=
  (let? num := getitem vector i in
   let? a := getitem (average self) i in
   let? avg := setitem (average self) i (py_add a num) in
   let self := set_average self avg in
   let? lo := getitem (min self) i in
   if negb (opt_bool lo) then
     (* if not self.min[i]: *)
     let? mn := setitem (min self) i (Some num) in
     let self := set_min self mn in
     let? mx := setitem (max self) i (Some num) in
     Ok (set_max self mx)
   else
     let? lo := getitem (min self) i in
     let? self :=
       (if opt_gt lo num
        then let? mn := setitem (min self) i (Some num) in Ok (set_min self mn)
        else Ok self) in
     let? hi := getitem (max self) i in
     if opt_lt hi num
     then let? mx := setitem (max self) i (Some num) in Ok (set_max self mx)
     else Ok self)%res.

(** Lines 45-56. *)
Definition accumulate (self : ThreeDee A) : result (ThreeDee A) :=
  for_each (verts self)
           (fun vector self => for_each range3 (visit vector) self) self.

(** Lines 58-59: [self.average[i] /= len(self.verts)]. *)
Definition normalise (i : nat) (self : ThreeDee A) : result (ThreeDee A) :=
  (let? a := getitem (average self) i in
   let? q := py_div_len a (length (verts self)) in
   let? avg := setitem (average self) i q in
   Ok (set_average self avg))%res.

(** [abs(self.min[i] - self.max[i])]; subtracting [None] is a
    [TypeError]. *)
Definition extent (self : ThreeDee A) (i : nat) : result A :=
  (let? lo := getitem (min self) i in
   let? hi := getitem (max self) i in
   match lo, hi with
   | Some a, Some b => Ok (py_abs (py_sub a b))
   | _, _ => Raise TypeError
   end)%res.

(** Lines 45-63: everything [__init__] does once [load] has returned a
    non-empty list. *)
Definition statistics (self : ThreeDee A) : result (ThreeDee A) :=
  (let? self := accumulate self in
   let? self := for_each range3 normalise self in
   let? w := extent self 0 in
   let? d := extent self 1 in
   let? h := extent self 2 in
   Ok (mkThreeDee (verts self) (average self) (min self) (max self) w d h))%res.

(** [ThreeDee.__init__(self, fileob)].  [load] is the method the
    subclass overrides: it returns the vertices it appended to the
    initially empty [self.verts]. *)
Definition ThreeDee_init (load : M (list (list A))) : M (ThreeDee A) :=
  (let! vs := load in
   let self :=
     mkThreeDee vs [py_zero; py_zero; py_zero] [None; None; None]
                [None; None; None] py_zero py_zero py_zero in
   if Nat.eqb (length (verts self)) 0
   then raise (ThreeDeeParseError "Empyt model.")
   else lift (statistics self))%io.

(** [ThreeDee.load]: the base class reads nothing. *)
Definition ThreeDee_load : M (list (list A)) := ret [].

End ThreeDee.

(** ** class ObjModel(ThreeDee) *)

(** [ObjModel.__vector(line, expected=3)] *)
Definition ObjModel__vector (line : string) (expected : nat) : result (list float) :=
  (let? nums := py_map PyFloat.float (tail (PyStr.split " " (PyStr.strip line))) in
   Ok (take expected nums))%res.

(** One iteration of [for line in fileob]: the iterator hands out [line]
    and the position moves past it. *)
Definition next_line (line : string) : M unit :=
  fun f => (Ok tt, mkFile (data f) (pos f + String.length line) (ops f ++ [OpNext])).

(** The final step of the iteration: nothing left, the loop ends. *)
Definition stop_iteration : M unit :=
  fun f => (Ok tt, mkFile (data f) (pos f) (ops f ++ [OpNext])).

(** The loop of [ObjModel.load] over the lines still to come. *)
Fixpoint ObjModel_load_lines (lines : list string) (verts : list (list float))
  : M (list (list float)) :=
  match lines with
  | [] => (do! stop_iteration in ret verts)%io
  | line :: rest =>
      (do! next_line line in
       match line with
       | EmptyString => raise IndexError          (* line[0] *)
       | String c _ =>
           if Ascii.eqb c "v"%char
           then let! v := lift (ObjModel__vector line 3) in
                ObjModel_load_lines rest (verts ++ [v])%list
           else ObjModel_load_lines rest verts
       end)%io
  end.

(** [ObjModel.load(self, fileob)] *)
Definition ObjModel_load : M (list (list float)) :=
  fun f => ObjModel_load_lines (PyStr.readlines (remaining f)) [] f.

(** [ObjModel(fileob)] *)
Definition ObjModel : M (ThreeDee float) := ThreeDee_init ObjModel_load.

(** ** class BinaryStlModel(ThreeDee) *)

(** Little-endian bytes as an unsigned number. *)
Fixpoint le_unsigned (s : string) : Z :=
  match s with
  | EmptyString => 0
  | String c r => Z.of_nat (nat_of_ascii c) + 256 * le_unsigned r
  end.

(** [struct.unpack(form, s)[0]] for the three formats the loader uses:
    the buffer must have exactly the size of the format. *)
Definition struct_unpack (form : option string) (s : string) : result Z :=
  match form with
  | None => Raise TypeError
  | Some fmt =>
      if String.eqb fmt "<I" then
        if Nat.eqb (String.length s) 4 then Ok (le_unsigned s) else Raise StructError
      else if String.eqb fmt "<i" then
        if Nat.eqb (String.length s) 4
        then let u := le_unsigned s in Ok (if u <? 2 ^ 31 then u else u - 2 ^ 32)
        else Raise StructError
      else if String.eqb fmt "<H" then
        if Nat.eqb (String.length s) 2 then Ok (le_unsigned s) else Raise StructError
      else Raise StructError
  end.

(** [BinaryStlModel.__num(fileob, hint)] *)
Definition BinaryStlModel__num (hint : string) : M Z :=
  if negb (String.eqb hint "uint" || String.eqb hint "real" || String.eqb hint "short")
  then raise AssertionError
  else
    let '(form, bits) :=
      if String.eqb hint "uint" then (Some "<I", 32)       (* unsigned int *)
      else if String.eqb hint "real" then (Some "<i", 32)  (* signed int *)
      else if String.eqb hint "short" then (Some "<H", 16) (* unsigned short *)
      else (None, 0) in
    (let! s := read (Z.to_nat (bits / 8)) in
     lift (struct_unpack form s))%io.

(** [BinaryStlModel.__vector(fileob)] *)
Definition BinaryStlModel__vector : M (list Z) :=
  for_each_io range3
    (fun _ (acc : list Z) =>
       let! x := BinaryStlModel__num "real" in ret (acc ++ [x])%list)%io [].

Section Loader.
(** The largest [n] for which [range(n)] can still allocate its list. *)
Variable mem_limit : N.

(** [range(n)] of Python 2 builds the whole list. *)
Definition py_range (n : Z) : result (list nat) :=
  if Z.of_N mem_limit <? n then Raise MemoryError
  else Ok (seq 0 (Z.to_nat n)).

(** One triangle record: lines 115-121. *)
Definition BinaryStlModel_triangle (verts : list (list Z)) : M (list (list Z)) :=
  (do! BinaryStlModel__vector in      (* skip the normal vector *)
   let! verts :=
     for_each_io range3
       (fun _ (verts : list (list Z)) =>
          let! v := BinaryStlModel__vector in ret (verts ++ [v])%list)
       verts in
   do! BinaryStlModel__num "short" in  (* skip the attribute byte count *)
   ret verts)%io.

(** [BinaryStlModel.load(self, fileob)] *)
Definition BinaryStlModel_load : M (list (list Z)) :=
  (do! seek 80 in                      (* skip the header *)
   let! triangle_count := BinaryStlModel__num "uint" in
   let! idx := lift (py_range triangle_count) in
   for_each_io idx (fun _ verts => BinaryStlModel_triangle verts) [])%io.

(** [BinaryStlModel(fileob)] *)
Definition BinaryStlModel : M (ThreeDee Z) := ThreeDee_init BinaryStlModel_load.

(** ** auto_detect *)

(** What [auto_detect] returns: an instance of one of the two classes. *)
Inductive model : Type :=
  | an_ObjModel (m : ThreeDee float)
  | a_BinaryStlModel (m : ThreeDee Z).

Definition fmap {X Y} (g : X -> Y) (m : M X) : M Y :=
  (let! x := m in ret (g x))%io.

Definition is_ThreeDeeParseError (e : exn) : bool :=
  match e with ThreeDeeParseError _ => true | _ => false end.

Definition is_MemoryError (e : exn) : bool :=
  match e with MemoryError => true | _ => false end.

(** [hint == s] and [not hint] for a hint that is [None] or a string. *)
Definition hint_eq (hint : option string) (s : string) : bool :=
  match hint with
  | Some h => String.eqb h s
  | None => false
  end.

Definition hint_not (hint : option string) : bool :=
  match hint with
  | None => true
  | Some h => String.eqb h ""
  end.

Definition unrecognized : exn :=
  ThreeDeeParseError "Could not successfully parse the model :(".

(** Lines 135-153. *)
Definition auto_detect_stl (hint : option string) : M model :=
  if hint_eq hint "stl" || hint_not hint then
    try_except (fmap an_ObjModel ObjModel) is_ThreeDeeParseError
      (try_except (fmap a_BinaryStlModel BinaryStlModel)
         (fun e => is_ThreeDeeParseError e || is_MemoryError e)
         (raise unrecognized))
  else raise unrecognized.

(** [auto_detect(fileob, hint)] *)
Definition auto_detect (hint : option string) : M model :=
  if hint_eq hint "obj" || hint_not hint then
    try_except (fmap an_ObjModel ObjModel) is_ThreeDeeParseError
      (auto_detect_stl hint)
  else auto_detect_stl hint.

End Loader.

(** * Properties *)

(** The text ["\n"]. *)
Definition LF : string := String "010"%char EmptyString.

(** A line [ObjModel.load] treats as a vertex record: [line[0] == "v"]. *)
Definition is_vertex_line (line : string) : bool :=
  match line with
  | String c _ => Ascii.eqb c "v"%char
  | EmptyString => false
  end.

(** The tokens [ObjModel.__vector] converts: [line.strip().split(" ")[1:]]. *)
Definition tokens (line : string) : list string :=
  tail (PyStr.split " " (PyStr.strip line)).

(** The triangle count a binary STL stream declares: the unsigned 32-bit
    little-endian number at offset 80, when the stream is that long. *)
Definition declared_triangle_count (d : string) : result Z :=
  struct_unpack (Some "<I") (PyStr.take 4 (PyStr.drop 80 d)).

(** Following the specification (4.3, design note): a 32-bit field read as
    an IEEE-754 binary32, given its bits as an unsigned number. *)
Definition binary32_value (bits : Z) : float :=
  let e := Z.land (Z.shiftr bits 23) 255 in
  let m := Z.land bits (2 ^ 23 - 1) in
  let magnitude :=
    if e =? 255 then (if m =? 0 then infinity else nan)
    else if e =? 0 then Z.ldexp (PyFloat.of_Z m) (-149)
    else Z.ldexp (PyFloat.of_Z (2 ^ 23 + m)) (e - 150) in
  PyFloat.with_sign (Z.testbit bits 31) magnitude.

(** Following the specification: the decoder of a field tagged "real". *)
Definition spec_real (s : string) : result float :=
  if Nat.eqb (String.length s) 4 then Ok (binary32_value (le_unsigned s))
  else Raise StructError.

(** [r] raises nothing outside [P]. *)
Definition raises_in {A} (P : exn -> Prop) (r : result A) : Prop :=
  forall e, r = Raise e -> P e.

(** A vertex the statistics pass cannot index on all three axes. *)
Definition short_vertex {A} (v : list A) : Prop := (length v < 3)%nat.

(** Two file objects that hold the same bytes at the same position; the
    record of past operations may differ. *)
Definition same_bytes (f g : fileob) : Prop :=
  data f = data g /\ pos f = pos g.

(** [m] looks at nothing but the bytes and the position. *)
Definition respects {A} (m : M A) : Prop :=
  forall f g, same_bytes f g ->
    fst (m f) = fst (m g) /\ same_bytes (snd (m f)) (snd (m g)).

(** [m] decodes a record of exactly [k] bytes.  Started inside the data,
    it stays inside the data; with [k] bytes left it succeeds and moves
    [k] bytes on; with fewer it raises [struct.error]. *)
Definition fixed_width {A} (k : nat) (m : M A) : Prop :=
  forall f,
    (pos f <= String.length (data f))%nat ->
    data (snd (m f)) = data f /\
    (pos (snd (m f)) <= String.length (data f))%nat /\
    if (pos f + k <=? String.length (data f))%nat
    then (exists a, fst (m f) = Ok a) /\ pos (snd (m f)) = (pos f + k)%nat
    else fst (m f) = Raise StructError.

(** The width in bytes of the field [BinaryStlModel.__num] reads for a
    hint. *)
Definition field_width (hint : string) : nat :=
  if String.eqb hint "short" then 2%nat else 4%nat.

(** The file object once [BinaryStlModel.load] has skipped the header and
    read the triangle count. *)
Definition after_header (f : fileob) : fileob :=
  mkFile (data f)
         (80 + String.length (PyStr.take 4 (PyStr.drop 80 (data f))))
         ((ops f ++ [OpSeek 80]) ++ [OpRead 4]).

(** [r] is the module's own exception. *)
Definition raises_parse_error {A} (r : result A) : bool :=
  match r with
  | Raise e => is_ThreeDeeParseError e
  | Ok _ => false
  end.

(** Byte strings for binary streams. *)
Definition bytes (l : list Z) : string :=
  string_of_list_ascii (map (fun b => ascii_of_nat (Z.to_nat b)) l).

Definition zeros (n : nat) : string := bytes (repeat 0 n).

(** What the loop of [__init__] does to one axis, read off lines 47-56:
    the running sum, minimum and maximum of the axis after one more
    coordinate [num]. *)
Definition axis_step {A} `{PyNumber A} (st : A * option A * option A) (num : A)
  : A * option A * option A :=
  let '(sum, lo, hi) := st in
  (py_add sum num,
   if negb (opt_bool lo) then Some num
   else if opt_gt lo num then Some num else lo,
   if negb (opt_bool lo) then Some num
   else if opt_lt hi num then Some num else hi).

(** Coordinate [i] of every vertex. *)
Definition axis {A} `{PyNumber A} (i : nat) (vs : list (list A)) : list A :=
  map (fun v => default py_zero (v !! i)) vs.

Definition axis_run {A} `{PyNumber A} (i : nat) (vs : list (list A))
  : A * option A * option A :=
  fold_left axis_step (axis i vs) (py_zero, None, None).

Definition total (xs : list Z) : Z := fold_right Z.add 0 xs.

(** The least and the greatest element of [x :: xs]. *)
Definition minimum (x : Z) (xs : list Z) : Z := fold_left Z.min xs x.
Definition maximum (x : Z) (xs : list Z) : Z := fold_left Z.max xs x.

(** *** Reading a binary stream off its bytes *)

(** Two's complement reading of an unsigned 32-bit number. *)
Definition signed32 (u : Z) : Z := if u <? 2 ^ 31 then u else u - 2 ^ 32.

(** The [w] bytes at offset [off], little-endian. *)
Definition field_at (d : string) (off w : nat) : Z :=
  le_unsigned (PyStr.take w (PyStr.drop off d)).

(** The three signed numbers that start at offset [off]. *)
Definition vector_at (d : string) (off : nat) : list Z :=
  [signed32 (field_at d off 4); signed32 (field_at d (off + 4) 4);
   signed32 (field_at d (off + 8) 4)].

(** The three vertices of the 50-byte triangle record at offset [off]: the
    normal comes first and the attribute count last. *)
Definition triangle_at (d : string) (off : nat) : list (list Z) :=
  [vector_at d (off + 12); vector_at d (off + 24); vector_at d (off + 36)].

(** The vertices of [k] consecutive triangle records from offset [off]. *)
Fixpoint triangles_from (d : string) (off k : nat) : list (list Z) :=
  match k with
  | O => []
  | S k' => (triangle_at d off ++ triangles_from d (off + 50) k')%list
  end.

(** The reads one triangle record takes, and those of [k] records. *)
Definition triangle_ops : list io_op := (repeat (OpRead 4) 12 ++ [OpRead 2])%list.

Fixpoint triangles_ops (k : nat) : list io_op :=
  match k with
  | O => []
  | S k' => (triangle_ops ++ triangles_ops k')%list
  end.

(** Two file objects with the same bytes ahead of the position. *)
Definition same_rest (f g : fileob) : Prop := remaining f = remaining g.

(** [m] looks at nothing but the bytes ahead. *)
Definition reads_ahead {A} (m : M A) : Prop :=
  forall f g, same_rest f g ->
    fst (m f) = fst (m g) /\ same_rest (snd (m f)) (snd (m g)).

(** *** The statistics pass as three folds *)

(** [abs(lo - hi)] for an axis that ended with the minimum [lo] and the
    maximum [hi]. *)
Definition axis_extent {A} `{PyNumber A} (lo hi : option A) : result A :=
  match lo, hi with
  | Some a, Some b => Ok (py_abs (py_sub a b))
  | _, _ => Raise TypeError
  end.

(** The model of a vertex list, computed axis by axis. *)
Definition summarize {A} `{PyNumber A} (vs : list (list A)) : result (ThreeDee A) :=
  let '(s0, lo0, hi0) := axis_run 0 vs in
  let '(s1, lo1, hi1) := axis_run 1 vs in
  let '(s2, lo2, hi2) := axis_run 2 vs in
  (let? q0 := py_div_len s0 (length vs) in
   let? q1 := py_div_len s1 (length vs) in
   let? q2 := py_div_len s2 (length vs) in
   let? w := axis_extent lo0 hi0 in
   let? d := axis_extent lo1 hi1 in
   let? h := axis_extent lo2 hi2 in
   Ok (mkThreeDee vs [q0; q1; q2] [lo0; lo1; lo2] [hi0; hi1; hi2] w d h))%res.

(** The running minimum and maximum of an axis are both unset, or both
    set to coordinates that were seen. *)
Definition seen_bounds {A} (seen : list A) (lo hi : option A) : Prop :=
  match lo, hi with
  | None, None => True
  | Some a, Some b => In a seen /\ In b seen
  | _, _ => False
  end.

(** The operations are line iteration only. *)
Definition only_iterates (before after : list io_op) : Prop :=
  exists k, after = (before ++ repeat OpNext k)%list.

(** A string of white space. *)
Fixpoint all_space (s : string) : bool :=
  match s with
  | EmptyString => true
  | String c r => PyStr.isspace c && all_space r
  end.

(** A complete binary STL stream: a zero header, one triangle with the
    normal (0,0,0) and the vertices (0,0,0), (1,1,1), (2,2,2), and the
    attribute count 0. *)
Definition one_triangle : string :=
  zeros 80 ++ bytes [1; 0; 0; 0] ++ zeros 12 ++ zeros 12
  ++ bytes [1; 0; 0; 0; 1; 0; 0; 0; 1; 0; 0; 0]
  ++ bytes [2; 0; 0; 0; 2; 0; 0; 0; 2; 0; 0; 0]
  ++ zeros 2.

(** [m] leaves the contents of the file alone. *)
Definition keeps_data {A} (m : M A) : Prop :=
  forall f, data (snd (m f)) = data f.

(** A complete binary STL stream without a zero coordinate: one triangle
    with the vertices (1,1,1), (2,2,2), (3,3,3). *)
Definition nonzero_triangle : string :=
  zeros 80 ++ bytes [1; 0; 0; 0] ++ zeros 12
  ++ bytes [1; 0; 0; 0; 1; 0; 0; 0; 1; 0; 0; 0]
  ++ bytes [2; 0; 0; 0; 2; 0; 0; 0; 2; 0; 0; 0]
  ++ bytes [3; 0; 0; 0; 3; 0; 0; 0; 3; 0; 0; 0]
  ++ zeros 2.

(** *** The record of operations *)

Definition is_read (o : io_op) : bool :=
  match o with
  | OpRead _ => true
  | _ => false
  end.

(** The operations added are sized reads only. *)
Definition only_reads (before after : list io_op) : Prop :=
  exists t, after = (before ++ t)%list /\ forallb is_read t = true.

Definition appends_reads {A} (m : M A) : Prop :=
  forall f, only_reads (ops f) (ops (snd (m f))).

(** The operations added contain no seek but [seek(80)]: in particular
    no seek back to the start. *)
Definition seeks_only_to_80 (before after : list io_op) : Prop :=
  exists t, after = (before ++ t)%list /\
            forall n, In (OpSeek n) t -> n = 80%nat.

(** ** Strings and lines *)

Lemma length_take n s : String.length (PyStr.take n s) = Nat.min n (String.length s).
Proof.
  revert s; induction n as [|n IH]; intros [|c r]; simpl; auto.
Qed.

Lemma length_drop n s : String.length (PyStr.drop n s) = (String.length s - n)%nat.
Proof.
  revert s; induction n as [|n IH]; intros [|c r]; simpl; auto.
Qed.

Lemma drop_all n s : (String.length s <= n)%nat -> PyStr.drop n s = EmptyString.
Proof.
  revert s; induction n as [|n IH]; intros [|c r]; simpl; intros Hn; auto; try lia.
  apply IH; lia.
Qed.

(** No line of a file is empty. *)
Lemma readlines_nonempty s :
  Forall (fun l => l <> EmptyString) (PyStr.readlines s).
Proof.
  induction s as [|c r IH]; simpl; [constructor|].
  destruct (Ascii.eqb c "010").
  - constructor; [discriminate | exact IH].
  - destruct (PyStr.readlines r) as [|l ls].
    + repeat constructor; discriminate.
    + inversion IH; subst. constructor; [discriminate | assumption].
Qed.

(** The lines of a text make up the text. *)
Lemma readlines_length s :
  list_sum (map String.length (PyStr.readlines s)) = String.length s.
Proof.
  induction s as [|c r IH]; simpl; [reflexivity|].
  destruct (Ascii.eqb c "010"); simpl.
  - now rewrite IH.
  - destruct (PyStr.readlines r) as [|l ls]; simpl in *; lia.
Qed.

(** ** ObjModel.load *)

(** The loop keeps exactly the lines whose first character is [v], one
    vertex each, in file order; the first line that fails to convert
    aborts it. *)
Lemma ObjModel_load_lines_result lines acc f :
  Forall (fun l => l <> EmptyString) lines ->
  fst (ObjModel_load_lines lines acc f) =
  (let? vs := py_map (fun l => ObjModel__vector l 3)
                     (List.filter is_vertex_line lines) in
   Ok (acc ++ vs)%list)%res.
Proof.
  intros Hne; revert acc f.
  induction Hne as [|line rest Hline _ IH]; intros acc f.
  - simpl. now rewrite app_nil_r.
  - destruct line as [|c r]; [congruence|].
    cbn [ObjModel_load_lines List.filter is_vertex_line].
    unfold bind at 1. cbn [next_line].
    destruct (Ascii.eqb c "v").
    + cbn [py_map rbind]. unfold bind, lift.
      destruct (ObjModel__vector (String c r) 3) as [v|e]; cbn [rbind fst]; [|reflexivity].
      rewrite IH.
      destruct (py_map _ _) as [vs|e]; cbn [rbind]; [|reflexivity].
      now rewrite <- app_assoc.
    + apply IH.
Qed.

(** A successful load has read every line: the position has moved past
    all of them and nothing but line iteration touched the file. *)
Lemma ObjModel_load_lines_state lines acc f vs f' :
  ObjModel_load_lines lines acc f = (Ok vs, f') ->
  data f' = data f /\
  pos f' = (pos f + list_sum (map String.length lines))%nat /\
  ops f' = (ops f ++ repeat OpNext (S (length lines)))%list.
Proof.
  revert acc f; induction lines as [|line rest IH]; intros acc f.
  - cbn. intros [= _ <-]; cbn. split; [reflexivity|]. split; [lia | reflexivity].
  - cbn [ObjModel_load_lines]. unfold bind at 1. cbn [next_line].
    set (f1 := mkFile _ _ _).
    assert (Hstep : forall acc',
               ObjModel_load_lines rest acc' f1 = (Ok vs, f') ->
               data f' = data f /\
               pos f' = (pos f + list_sum (map String.length (line :: rest)))%nat /\
               ops f' = (ops f ++ repeat OpNext (S (length (line :: rest))))%list).
    { intros acc' Hrest. apply IH in Hrest as (Hd & Hp & Ho).
      subst f1; cbn [data pos ops] in Hd, Hp, Ho.
      change (list_sum (map String.length (line :: rest)))
        with (String.length line + list_sum (map String.length rest))%nat.
      split; [assumption|]. split; [lia|].
      rewrite Ho, <- app_assoc. reflexivity. }
    destruct line as [|c r]; [discriminate|].
    destruct (Ascii.eqb c "v").
    + unfold bind, lift.
      destruct (ObjModel__vector (String c r) 3) as [v|e]; [|discriminate].
      apply Hstep.
    + apply Hstep.
Qed.

Lemma ObjModel_load_result f :
  fst (ObjModel_load f) =
  py_map (fun l => ObjModel__vector l 3)
         (List.filter is_vertex_line (PyStr.readlines (remaining f))).
Proof.
  unfold ObjModel_load.
  rewrite ObjModel_load_lines_result by apply readlines_nonempty.
  destruct (py_map _ _); reflexivity.
Qed.

Lemma ObjModel_load_state f vs f' :
  ObjModel_load f = (Ok vs, f') ->
  data f' = data f /\ remaining f' = EmptyString.
Proof.
  unfold ObjModel_load. intros Hload.
  apply ObjModel_load_lines_state in Hload as (Hd & Hp & _).
  split; [assumption|].
  unfold remaining. rewrite Hd, Hp, readlines_length.
  apply drop_all. unfold remaining. rewrite length_drop. lia.
Qed.

(** ** Which exceptions can come from where *)

Lemma raises_in_Ok {A} P (a : A) : raises_in P (Ok a).
Proof. intros e [=]. Qed.

Lemma raises_in_Raise {A} (P : exn -> Prop) e : P e -> raises_in P (@Raise A e).
Proof. intros HP e' [= <-]. exact HP. Qed.

Lemma raises_in_rbind {A B} P (r : result A) (k : A -> result B) :
  raises_in P r -> (forall a, raises_in P (k a)) -> raises_in P (rbind r k).
Proof.
  intros Hr Hk e. destruct r as [a|e']; cbn.
  - apply Hk.
  - intros [= <-]. now apply Hr.
Qed.

Lemma raises_in_weaken {A} (P Q : exn -> Prop) (r : result A) :
  (forall e, P e -> Q e) -> raises_in P r -> raises_in Q r.
Proof. intros HPQ Hr e He. auto. Qed.

Lemma raises_in_for_each {T S} P (xs : list T) (body : T -> S -> result S) s :
  (forall x s, raises_in P (body x s)) -> raises_in P (for_each xs body s).
Proof.
  intros Hbody; revert s; induction xs as [|x xs IH]; intros s; cbn.
  - apply raises_in_Ok.
  - apply raises_in_rbind; auto.
Qed.

Lemma raises_in_py_map {T U} P (f : T -> result U) xs :
  (forall x, raises_in P (f x)) -> raises_in P (py_map f xs).
Proof.
  intros Hf; induction xs as [|x xs IH]; cbn.
  - apply raises_in_Ok.
  - apply raises_in_rbind; [apply Hf|]. intros y.
    apply raises_in_rbind; [apply IH|]. intros ys. apply raises_in_Ok.
Qed.

Lemma raises_in_getitem {T} (l : list T) i : raises_in (eq IndexError) (getitem l i).
Proof. unfold getitem. destruct (l !! i); [apply raises_in_Ok | now apply raises_in_Raise]. Qed.

Lemma raises_in_setitem {T} (l : list T) i x :
  raises_in (eq IndexError) (setitem l i x).
Proof.
  unfold setitem. destruct (i <? length l)%nat;
    [apply raises_in_Ok | now apply raises_in_Raise].
Qed.

Ltac raises_step :=
  first
    [ apply raises_in_Ok
    | apply raises_in_getitem
    | apply raises_in_setitem
    | apply raises_in_rbind; [|intros ?]
    | match goal with
      | |- raises_in _ (if ?b then _ else _) => destruct b
      | |- raises_in _ (match ?x with _ => _ end) => destruct x
      end ].

Section ThreeDeeFacts.
Context {A : Type} `{PyNumber A}.

Lemma visit_raises (vector : list A) i self :
  raises_in (eq IndexError) (visit vector i self).
Proof. unfold visit. cbv zeta. repeat raises_step. Qed.

Lemma accumulate_raises (self : ThreeDee A) :
  raises_in (eq IndexError) (accumulate self).
Proof.
  unfold accumulate. apply raises_in_for_each. intros v s.
  apply raises_in_for_each. intros i s'. apply visit_raises.
Qed.

(** The inner loop cannot get past a vertex with fewer than three
    components: [vector[i]] fails on it. *)
Lemma visit_short (vector : list A) self :
  short_vertex vector ->
  for_each range3 (visit vector) self = Raise IndexError.
Proof.
  intros Hshort.
  assert (Hfail : forall i s, (length vector <= i)%nat ->
                              visit vector i s = Raise IndexError).
  { intros i s Hi. unfold visit, getitem.
    rewrite (proj2 (lookup_ge_None vector i)) by lia. reflexivity. }
  assert (Hstep : forall i s s', visit vector i s = s' ->
                                 s' = Raise IndexError \/ exists s1, s' = Ok s1).
  { intros i s [s1|e] Hv; [right; eauto | left].
    f_equal. symmetry. exact (visit_raises _ _ _ _ Hv). }
  unfold short_vertex in Hshort. unfold range3. cbn [for_each].
  destruct (Hstep 0%nat self _ eq_refl) as [-> | [s1 ->]]; [reflexivity|]; cbn [rbind].
  destruct (Hstep 1%nat s1 _ eq_refl) as [-> | [s2 ->]]; [reflexivity|]; cbn [rbind].
  rewrite (Hfail 2%nat s2) by lia. reflexivity.
Qed.

Lemma for_each_short (vs : list (list A)) self :
  Exists short_vertex vs ->
  for_each vs (fun vector s => for_each range3 (visit vector) s) self
  = Raise IndexError.
Proof.
  intros Hex; revert self. induction Hex as [v vs Hv | v vs _ IH]; intros self.
  - cbn [for_each]. now rewrite visit_short.
  - cbn [for_each].
    destruct (for_each range3 (visit v) self) as [s|e] eqn:Hv; cbn [rbind].
    + apply IH.
    + f_equal. symmetry.
      refine (raises_in_for_each (eq IndexError) _ _ _ _ _ Hv).
      intros i s'. apply visit_raises.
Qed.

Lemma statistics_short (self : ThreeDee A) :
  Exists short_vertex (verts self) -> statistics self = Raise IndexError.
Proof.
  intros Hex. unfold statistics, accumulate.
  now rewrite for_each_short.
Qed.

(** How [__init__] continues after [load]. *)
Lemma ThreeDee_init_raise (load : M (list (list A))) f e f' :
  load f = (Raise e, f') -> ThreeDee_init load f = (Raise e, f').
Proof. intros Hl. unfold ThreeDee_init, bind. now rewrite Hl. Qed.

Lemma ThreeDee_init_empty (load : M (list (list A))) f f' :
  load f = (Ok [], f') ->
  ThreeDee_init load f = (Raise (ThreeDeeParseError "Empyt model."), f').
Proof. intros Hl. unfold ThreeDee_init, bind. now rewrite Hl. Qed.

Lemma ThreeDee_init_nonempty (load : M (list (list A))) f v vs f' :
  load f = (Ok (v :: vs), f') ->
  ThreeDee_init load f =
  (statistics (mkThreeDee (v :: vs) [py_zero; py_zero; py_zero]
                          [None; None; None] [None; None; None]
                          py_zero py_zero py_zero), f').
Proof. intros Hl. unfold ThreeDee_init, bind. now rewrite Hl. Qed.

End ThreeDeeFacts.

(** ** Fixed-width binary records *)

Lemma fixed_width_ret {A} (a : A) : fixed_width 0 (ret a).
Proof.
  intros f Hf. cbn. split; [reflexivity|]. split; [assumption|].
  replace (pos f + 0 <=? String.length (data f))%nat with true
    by (symmetry; apply Nat.leb_le; lia).
  split; [eauto | lia].
Qed.

Lemma fixed_width_bind {A B} k1 k2 (m : M A) (g : A -> M B) :
  fixed_width k1 m -> (forall a, fixed_width k2 (g a)) ->
  fixed_width (k1 + k2) (bind m g).
Proof.
  intros Hm Hg f Hf. unfold bind.
  destruct (Hm f Hf) as (Hd1 & Hb1 & H1).
  destruct (m f) as [[a|e] f1] eqn:Hmf; cbn [fst snd] in *.
  - destruct (Hg a f1) as (Hd2 & Hb2 & H2); [congruence|].
    rewrite Hd1 in Hd2, Hb2, H2.
    split; [assumption|]. split; [assumption|].
    destruct (pos f + k1 <=? String.length (data f))%nat eqn:Hle1.
    + destruct H1 as [_ Hp1]. rewrite Hp1 in H2.
      replace (pos f + (k1 + k2))%nat with (pos f + k1 + k2)%nat by lia.
      exact H2.
    + discriminate H1.
  - split; [assumption|]. split; [assumption|].
    destruct (pos f + k1 <=? String.length (data f))%nat eqn:Hle1.
    + destruct H1 as [[a [=]] _].
    + apply Nat.leb_gt in Hle1.
      replace (pos f + (k1 + k2) <=? String.length (data f))%nat with false
        by (symmetry; apply Nat.leb_gt; lia).
      now injection H1 as ->.
Qed.

(** What [__num] does with the bytes it gets, whatever the position. *)
Lemma BinaryStlModel__num_read hint f :
  hint = "uint" \/ hint = "real" \/ hint = "short" ->
  exists form,
    BinaryStlModel__num hint f =
    (struct_unpack (Some form) (PyStr.take (field_width hint) (remaining f)),
     mkFile (data f)
            (pos f + String.length (PyStr.take (field_width hint) (remaining f)))
            (ops f ++ [OpRead (field_width hint)])) /\
    (forall s, String.length s = field_width hint ->
               exists a, struct_unpack (Some form) s = Ok a) /\
    (forall s, String.length s <> field_width hint ->
               struct_unpack (Some form) s = Raise StructError).
Proof.
  intros [-> | [-> | ->]];
    [exists "<I" | exists "<i" | exists "<H"];
    (split; [reflexivity|]; split; intros s Hs;
     unfold struct_unpack, field_width in *; simpl String.eqb in *; cbv iota in *;
     match goal with
     | |- context [Nat.eqb ?a ?b] =>
         destruct (Nat.eqb_spec a b); [eauto; congruence | eauto; congruence]
     end).
Qed.

Lemma fixed_width_num hint :
  hint = "uint" \/ hint = "real" \/ hint = "short" ->
  fixed_width (field_width hint) (BinaryStlModel__num hint).
Proof.
  intros Hh f Hf.
  destruct (BinaryStlModel__num_read hint f Hh) as (form & -> & Hok & Hbad).
  cbn [fst snd data pos].
  pose proof (length_take (field_width hint) (remaining f)) as Hlen.
  unfold remaining in *. rewrite length_drop in Hlen.
  split; [reflexivity|]. split; [lia|].
  destruct (pos f + field_width hint <=? String.length (data f))%nat eqn:Hle.
  - apply Nat.leb_le in Hle. split; [apply Hok|]; lia.
  - apply Nat.leb_gt in Hle. apply Hbad; lia.
Qed.

Lemma fixed_width_for_each {T S} k (xs : list T) (body : T -> S -> M S) s :
  (forall x s, fixed_width k (body x s)) ->
  fixed_width (length xs * k) (for_each_io xs body s).
Proof.
  intros Hbody; revert s; induction xs as [|x xs IH]; intros s.
  - apply fixed_width_ret.
  - cbn [for_each_io length Nat.mul]. apply fixed_width_bind; auto.
Qed.

Lemma fixed_width_vector : fixed_width 12 BinaryStlModel__vector.
Proof.
  unfold BinaryStlModel__vector.
  apply (fixed_width_for_each 4 range3). intros _ acc.
  change 4%nat with (field_width "real" + 0)%nat.
  apply fixed_width_bind; [apply fixed_width_num; auto|].
  intros x. apply fixed_width_ret.
Qed.

Lemma fixed_width_triangle verts : fixed_width 50 (BinaryStlModel_triangle verts).
Proof.
  unfold BinaryStlModel_triangle.
  change 50%nat with (12 + (3 * 12 + (field_width "short" + 0)))%nat.
  apply fixed_width_bind; [apply fixed_width_vector|]. intros _.
  apply fixed_width_bind.
  - apply (fixed_width_for_each 12 range3). intros _ vs.
    change 12%nat with (12 + 0)%nat at 1.
    apply fixed_width_bind; [apply fixed_width_vector|].
    intros v. apply fixed_width_ret.
  - intros vs. apply fixed_width_bind; [apply fixed_width_num; auto|].
    intros _. apply fixed_width_ret.
Qed.

(** ** BinaryStlModel.load *)

Lemma fixed_width_triangles {T} (idx : list T) verts :
  fixed_width (length idx * 50)
    (for_each_io idx (fun _ verts => BinaryStlModel_triangle verts) verts).
Proof.
  apply fixed_width_for_each. intros _ vs. apply fixed_width_triangle.
Qed.

(** The header is skipped with an absolute seek, and the count is the
    number the stream declares at offset 80. *)
Lemma BinaryStlModel_load_header mem_limit f :
  BinaryStlModel_load mem_limit f =
  (let! triangle_count := lift (declared_triangle_count (data f)) in
   let! idx := lift (py_range mem_limit triangle_count) in
   for_each_io idx (fun _ verts => BinaryStlModel_triangle verts) [])%io
    (after_header f).
Proof. reflexivity. Qed.

Lemma declared_triangle_count_length d n :
  declared_triangle_count d = Ok n -> (84 <= String.length d)%nat.
Proof.
  unfold declared_triangle_count, struct_unpack. simpl String.eqb. cbv iota.
  destruct (Nat.eqb_spec (String.length (PyStr.take 4 (PyStr.drop 80 d))) 4)
    as [Hlen|]; [|discriminate].
  rewrite length_take, length_drop in Hlen. lia.
Qed.

Lemma after_header_pos f n :
  declared_triangle_count (data f) = Ok n -> pos (after_header f) = 84%nat.
Proof.
  intros Hn. apply declared_triangle_count_length in Hn.
  unfold after_header; cbn [pos]. rewrite length_take, length_drop. lia.
Qed.

(** ** Independence of the record of operations *)

Lemma respects_ret {A} (a : A) : respects (ret a).
Proof. intros f g Hfg. now split. Qed.

Lemma respects_raise {A} e : respects (@raise A e).
Proof. intros f g Hfg. now split. Qed.

Lemma respects_lift {A} (r : result A) : respects (lift r).
Proof. intros f g Hfg. now split. Qed.

Lemma respects_read size : respects (read size).
Proof.
  intros f g [Hd Hp]. unfold read, remaining. cbn. rewrite Hd, Hp.
  split; [reflexivity|]. now split.
Qed.

Lemma respects_bind {A B} (m : M A) (k : A -> M B) :
  respects m -> (forall a, respects (k a)) -> respects (bind m k).
Proof.
  intros Hm Hk f g Hfg. unfold bind.
  destruct (Hm f g Hfg) as [Hr Hs].
  destruct (m f) as [[a|e] f1], (m g) as [[b|e'] g1]; cbn [fst snd] in *;
    try discriminate.
  - injection Hr as <-. now apply Hk.
  - injection Hr as <-. now split.
Qed.

Lemma respects_for_each_io {T S} (xs : list T) (body : T -> S -> M S) s :
  (forall x s, respects (body x s)) -> respects (for_each_io xs body s).
Proof.
  intros Hbody; revert s; induction xs as [|x xs IH]; intros s; cbn.
  - apply respects_ret.
  - apply respects_bind; auto.
Qed.

Lemma respects_num hint : respects (BinaryStlModel__num hint).
Proof.
  unfold BinaryStlModel__num.
  destruct (negb _); [apply respects_raise|].
  destruct (if String.eqb hint "uint" then _ else _) as [form bits].
  apply respects_bind; [apply respects_read | intros s; apply respects_lift].
Qed.

Lemma respects_vector : respects BinaryStlModel__vector.
Proof.
  apply respects_for_each_io. intros _ acc.
  apply respects_bind; [apply respects_num | intros x; apply respects_ret].
Qed.

Lemma respects_triangle verts : respects (BinaryStlModel_triangle verts).
Proof.
  unfold BinaryStlModel_triangle.
  apply respects_bind; [apply respects_vector | intros _].
  apply respects_bind.
  - apply respects_for_each_io. intros _ vs.
    apply respects_bind; [apply respects_vector | intros v; apply respects_ret].
  - intros vs. apply respects_bind; [apply respects_num | intros _; apply respects_ret].
Qed.

Lemma respects_ThreeDee_init {A} `{PyNumber A} (load : M (list (list A))) :
  respects load -> respects (ThreeDee_init load).
Proof.
  intros Hl. unfold ThreeDee_init. apply respects_bind; [assumption|].
  intros vs. cbv zeta. destruct (Nat.eqb _ _); [apply respects_raise | apply respects_lift].
Qed.

(** [BinaryStlModel] starts with an absolute seek: what it returns depends
    on the bytes of the stream only, not on where the stream stood. *)
Lemma BinaryStlModel_position_independent mem_limit f g :
  data f = data g ->
  fst (BinaryStlModel mem_limit f) = fst (BinaryStlModel mem_limit g).
Proof.
  intros Hd.
  set (rest := (let! triangle_count := BinaryStlModel__num "uint" in
                let! idx := lift (py_range mem_limit triangle_count) in
                for_each_io idx (fun _ verts => BinaryStlModel_triangle verts) [])%io).
  assert (Hrest : respects (ThreeDee_init rest)).
  { apply respects_ThreeDee_init. subst rest.
    apply respects_bind; [apply respects_num | intros n].
    apply respects_bind; [apply respects_lift | intros idx].
    apply respects_for_each_io. intros _ vs. apply respects_triangle. }
  change (BinaryStlModel mem_limit f)
    with (ThreeDee_init rest (mkFile (data f) 80 (ops f ++ [OpSeek 80]))).
  change (BinaryStlModel mem_limit g)
    with (ThreeDee_init rest (mkFile (data g) 80 (ops g ++ [OpSeek 80]))).
  apply Hrest. now split.
Qed.

(** ** ObjModel as a candidate *)

Lemma float_raises s : raises_in (eq ValueError) (PyFloat.float s).
Proof.
  unfold PyFloat.float.
  destruct (PyFloat.sign _) as [neg body].
  destruct (_ || _); [apply raises_in_Ok|].
  destruct (String.eqb _ _); [apply raises_in_Ok|].
  destruct (PyFloat.decimal body); [apply raises_in_Ok | now apply raises_in_Raise].
Qed.

Lemma ObjModel__vector_raises line n :
  raises_in (eq ValueError) (ObjModel__vector line n).
Proof.
  unfold ObjModel__vector. apply raises_in_rbind.
  - apply raises_in_py_map, float_raises.
  - intros nums. apply raises_in_Ok.
Qed.

Lemma ObjModel_load_raises f : raises_in (eq ValueError) (fst (ObjModel_load f)).
Proof.
  rewrite ObjModel_load_result.
  apply raises_in_py_map. intros l. apply ObjModel__vector_raises.
Qed.

(** The statistics pass never raises the module's own exception. *)
Lemma statistics_raises {A} `{PyNumber A} (self : ThreeDee A) :
  (forall x n, raises_in (eq ZeroDivisionError) (py_div_len x n)) ->
  raises_in (fun e => is_ThreeDeeParseError e = false) (statistics self).
Proof.
  intros Hdiv.
  assert (Hidx : forall T (r : result T),
             raises_in (eq IndexError) r ->
             raises_in (fun e => is_ThreeDeeParseError e = false) r).
  { intros T r. apply raises_in_weaken. now intros e <-. }
  assert (Hext : forall s i,
             raises_in (fun e => is_ThreeDeeParseError e = false) (extent s i)).
  { intros s i. unfold extent.
    apply raises_in_rbind; [apply Hidx, raises_in_getitem | intros lo].
    apply raises_in_rbind; [apply Hidx, raises_in_getitem | intros hi].
    destruct lo, hi; try apply raises_in_Ok; now apply raises_in_Raise. }
  unfold statistics.
  apply raises_in_rbind; [apply Hidx, accumulate_raises | intros s1].
  apply raises_in_rbind.
  - apply raises_in_for_each. intros i s. unfold normalise.
    apply raises_in_rbind; [apply Hidx, raises_in_getitem | intros a].
    apply raises_in_rbind.
    + generalize (Hdiv a (length (verts s))). apply raises_in_weaken. now intros e <-.
    + intros q. apply raises_in_rbind; [apply Hidx, raises_in_setitem | intros avg].
      apply raises_in_Ok.
  - intros s2.
    apply raises_in_rbind; [apply Hext | intros w].
    apply raises_in_rbind; [apply Hext | intros d].
    apply raises_in_rbind; [apply Hext | intros h].
    apply raises_in_Ok.
Qed.

Lemma py_div_len_float_raises (x : float) n :
  raises_in (eq ZeroDivisionError) (py_div_len x n).
Proof.
  cbn. destruct (Nat.eqb n 0); [now apply raises_in_Raise | apply raises_in_Ok].
Qed.

(** [ObjModel] raises the module's exception in one case only: the whole
    stream was read and no vertex line was found. *)
Lemma ObjModel_parse_error f msg f1 :
  ObjModel f = (Raise (ThreeDeeParseError msg), f1) ->
  ObjModel_load f = (Ok [], f1) /\ msg = "Empyt model.".
Proof.
  unfold ObjModel. intros Hobj.
  destruct (ObjModel_load f) as [[[|v vs]|e] f'] eqn:Hload.
  - rewrite (ThreeDee_init_empty _ _ _ Hload) in Hobj.
    now injection Hobj as <- <-.
  - rewrite (ThreeDee_init_nonempty _ _ _ _ _ Hload) in Hobj.
    injection Hobj as Hst _.
    apply (statistics_raises _ py_div_len_float_raises) in Hst. discriminate.
  - rewrite (ThreeDee_init_raise _ _ _ _ Hload) in Hobj.
    injection Hobj as -> _.
    pose proof (ObjModel_load_raises f) as Hr. rewrite Hload in Hr.
    specialize (Hr _ eq_refl). discriminate.
Qed.

Lemma ObjModel_nothing_left f :
  remaining f = EmptyString ->
  fst (ObjModel f) = Raise (ThreeDeeParseError "Empyt model.").
Proof.
  intros Hrem. unfold ObjModel, ThreeDee_init, bind, ObjModel_load.
  rewrite Hrem. reflexivity.
Qed.

Lemma py_map_In {T U} (f : T -> result U) xs ys x :
  py_map f xs = Ok ys -> In x xs -> exists y, f x = Ok y /\ In y ys.
Proof.
  revert ys; induction xs as [|x' xs IH]; intros ys Hmap Hin; [destruct Hin|].
  cbn in Hmap.
  destruct (f x') as [y'|] eqn:Hfx; [|discriminate]. cbn in Hmap.
  destruct (py_map f xs) as [ys'|] eqn:Hrest; [|discriminate]. cbn in Hmap.
  injection Hmap as <-.
  destruct Hin as [<- | Hin].
  - exists y'. split; [assumption | now left].
  - destruct (IH ys' eq_refl Hin) as (y & Hy & Hiny).
    exists y. split; [assumption | now right].
Qed.

(** ** The statistics pass, axis by axis *)

Ltac axis_simpl :=
  cbn -[opt_bool opt_gt opt_lt]; unfold set_average, set_min, set_max;
  cbn -[opt_bool opt_gt opt_lt].

Ltac axis_cases l h x :=
  axis_simpl; destruct (opt_bool l); axis_simpl;
  [ destruct (opt_gt l x); axis_simpl; destruct (opt_lt h x); axis_simpl | ].

Section AxisFacts.
Context {A : Type} `{PyNumber A}.

(** One vertex with three components or more moves every axis one
    [axis_step] on. *)
Lemma visit_vertex (x0 x1 x2 : A) rest vs a0 a1 a2 l0 l1 l2 h0 h1 h2 w d h :
  for_each range3 (visit (x0 :: x1 :: x2 :: rest))
    (mkThreeDee vs [a0; a1; a2] [l0; l1; l2] [h0; h1; h2] w d h) =
  let '(a0', l0', h0') := axis_step (a0, l0, h0) x0 in
  let '(a1', l1', h1') := axis_step (a1, l1, h1) x1 in
  let '(a2', l2', h2') := axis_step (a2, l2, h2) x2 in
  Ok (mkThreeDee vs [a0'; a1'; a2'] [l0'; l1'; l2'] [h0'; h1'; h2'] w d h).
Proof.
  unfold range3, axis_step. cbn [for_each]. unfold visit.
  axis_cases l0 h0 x0; (axis_cases l1 h1 x1; (axis_cases l2 h2 x2; reflexivity)).
Qed.

Lemma accumulate_vertices (vs0 vs : list (list A))
      a0 a1 a2 l0 l1 l2 h0 h1 h2 w d h :
  Forall (fun v => (3 <= length v)%nat) vs ->
  for_each vs (fun vector s => for_each range3 (visit vector) s)
    (mkThreeDee vs0 [a0; a1; a2] [l0; l1; l2] [h0; h1; h2] w d h) =
  let '(a0', l0', h0') := fold_left axis_step (axis 0 vs) (a0, l0, h0) in
  let '(a1', l1', h1') := fold_left axis_step (axis 1 vs) (a1, l1, h1) in
  let '(a2', l2', h2') := fold_left axis_step (axis 2 vs) (a2, l2, h2) in
  Ok (mkThreeDee vs0 [a0'; a1'; a2'] [l0'; l1'; l2'] [h0'; h1'; h2'] w d h).
Proof.
  intros Hlen. revert a0 a1 a2 l0 l1 l2 h0 h1 h2.
  induction Hlen as [|v vs Hv _ IH]; intros; [reflexivity|].
  destruct v as [|x0 [|x1 [|x2 rest]]]; cbn [length] in Hv; try lia.
  cbn [for_each]. rewrite visit_vertex.
  change (axis 0 ((x0 :: x1 :: x2 :: rest) :: vs)) with (x0 :: axis 0 vs).
  change (axis 1 ((x0 :: x1 :: x2 :: rest) :: vs)) with (x1 :: axis 1 vs).
  change (axis 2 ((x0 :: x1 :: x2 :: rest) :: vs)) with (x2 :: axis 2 vs).
  cbn [fold_left].
  destruct (axis_step (a0, l0, h0) x0) as [[a0' l0'] h0'].
  destruct (axis_step (a1, l1, h1) x1) as [[a1' l1'] h1'].
  destruct (axis_step (a2, l2, h2) x2) as [[a2' l2'] h2'].
  cbn [rbind]. apply IH.
Qed.

(** The whole pass, when every vertex has three components and every
    axis ends with a minimum and a maximum. *)
Lemma statistics_by_axis (vs : list (list A))
      s0 s1 s2 lo0 lo1 lo2 hi0 hi1 hi2 q0 q1 q2 :
  Forall (fun v => (3 <= length v)%nat) vs ->
  axis_run 0 vs = (s0, Some lo0, Some hi0) ->
  axis_run 1 vs = (s1, Some lo1, Some hi1) ->
  axis_run 2 vs = (s2, Some lo2, Some hi2) ->
  py_div_len s0 (length vs) = Ok q0 ->
  py_div_len s1 (length vs) = Ok q1 ->
  py_div_len s2 (length vs) = Ok q2 ->
  statistics (mkThreeDee vs [py_zero; py_zero; py_zero] [None; None; None]
                         [None; None; None] py_zero py_zero py_zero) =
  Ok (mkThreeDee vs [q0; q1; q2]
                 [Some lo0; Some lo1; Some lo2] [Some hi0; Some hi1; Some hi2]
                 (py_abs (py_sub lo0 hi0)) (py_abs (py_sub lo1 hi1))
                 (py_abs (py_sub lo2 hi2))).
Proof.
  unfold axis_run. intros Hlen H0 H1 H2 Hq0 Hq1 Hq2.
  unfold statistics, accumulate. cbn [verts].
  rewrite accumulate_vertices by assumption.
  rewrite H0, H1, H2. cbn [rbind for_each range3].
  unfold normalise, extent.
  cbn. rewrite Hq0. cbn. rewrite Hq1. cbn. rewrite Hq2. reflexivity.
Qed.

End AxisFacts.

(** *** Integer coordinates

    On the integers the pass is exact.  As long as no coordinate is 0 the
    running minimum is never taken for "not set", and the axis ends with
    the sum, the least and the greatest coordinate. *)
Lemma axis_fold_int xs :
  forall s lo hi k,
    lo <> 0 -> Forall (fun x => x <> 0) xs ->
    0 <= k -> k * lo <= s <= k * hi -> lo <= hi ->
    exists s',
      fold_left axis_step xs (s, Some lo, Some hi) =
      (s', Some (fold_left Z.min xs lo), Some (fold_left Z.max xs hi)) /\
      s' = s + total xs /\
      let k' := k + Z.of_nat (length xs) in
      k' * fold_left Z.min xs lo <= s' <= k' * fold_left Z.max xs hi.
Proof.
  induction xs as [|x xs IH]; intros s lo hi k Hlo Hnz Hk Hs Hle.
  - exists s. split; [reflexivity|]. cbn. rewrite !Z.add_0_r. now split.
  - inversion Hnz as [|? ? Hx Hxs]; subst.
    cbn [fold_left axis_step opt_bool opt_gt opt_lt py_bool py_gt py_lt
         py_add PyNumber_int].
    replace (negb (negb (lo =? 0))) with false
      by (symmetry; apply negb_false_iff, negb_true_iff, Z.eqb_neq; exact Hlo).
    replace (if lo >? x then Some x else Some lo) with (Some (Z.min lo x))
      by (rewrite Z.gtb_ltb; destruct (Z.ltb_spec x lo); f_equal; lia).
    replace (if hi <? x then Some x else Some hi) with (Some (Z.max hi x))
      by (destruct (Z.ltb_spec hi x); f_equal; lia).
    destruct (IH (s + x) (Z.min lo x) (Z.max hi x) (k + 1))
      as (s' & Hfold & Hsum & Hb); try lia; try assumption.
    + nia.
    + exists s'. split; [exact Hfold|].
      split; [cbn [total fold_right]; fold (total xs); lia|].
      cbn [length]. cbv zeta in Hb |- *.
      replace (k + Z.of_nat (S (length xs))) with (k + 1 + Z.of_nat (length xs)) by lia.
      exact Hb.
Qed.

Lemma axis_run_int i (vs : list (list Z)) :
  vs <> [] ->
  Forall (fun x => x <> 0) (axis i vs) ->
  exists x xs,
    axis i vs = x :: xs /\
    axis_run i vs = (total (x :: xs), Some (minimum x xs), Some (maximum x xs)) /\
    let n := Z.of_nat (length vs) in
    n * minimum x xs <= total (x :: xs) <= n * maximum x xs.
Proof.
  intros Hne Hnz. unfold axis_run.
  assert (Hn : length (axis i vs) = length vs) by apply length_map.
  destruct (axis i vs) as [|x xs] eqn:Haxis.
  - destruct vs; [congruence | discriminate].
  - exists x, xs. split; [reflexivity|].
    inversion Hnz as [|? ? Hx Hxs]; subst.
    cbn [fold_left axis_step opt_bool negb py_add PyNumber_int py_zero].
    destruct (axis_fold_int xs (0 + x) x x 1) as (s' & Hfold & Hsum & Hb);
      try assumption; try lia.
    rewrite Hfold. cbv zeta in Hb |- *. cbn [length] in Hn.
    unfold minimum, maximum. cbn [total fold_right]. fold (total xs).
    replace (Z.of_nat (length vs)) with (1 + Z.of_nat (length xs)) by lia.
    split; [f_equal; f_equal; lia | lia].
Qed.

(** On integer vertices without a zero coordinate the model is the one
    the specification describes: per axis the least and the greatest
    coordinate, and between them the (floored) mean. *)
Theorem statistics_int_nonzero (vs : list (list Z)) :
  vs <> [] ->
  Forall (fun v => (3 <= length v)%nat) vs ->
  (forall i, (i < 3)%nat -> Forall (fun x => x <> 0) (axis i vs)) ->
  exists m,
    statistics (mkThreeDee vs [0; 0; 0] [None; None; None] [None; None; None]
                           0 0 0) = Ok m /\
    verts m = vs /\
    forall i, (i < 3)%nat ->
      exists x xs,
        axis i vs = x :: xs /\
        min m !! i = Some (Some (minimum x xs)) /\
        max m !! i = Some (Some (maximum x xs)) /\
        average m !! i = Some (total (x :: xs) / Z.of_nat (length vs)) /\
        minimum x xs <= total (x :: xs) / Z.of_nat (length vs) <= maximum x xs.
Proof.
  intros Hne Hlen Hnz.
  destruct (axis_run_int 0 vs Hne (Hnz 0%nat ltac:(lia))) as (x0 & xs0 & Ha0 & Hr0 & Hb0).
  destruct (axis_run_int 1 vs Hne (Hnz 1%nat ltac:(lia))) as (x1 & xs1 & Ha1 & Hr1 & Hb1).
  destruct (axis_run_int 2 vs Hne (Hnz 2%nat ltac:(lia))) as (x2 & xs2 & Ha2 & Hr2 & Hb2).
  assert (Hn : (0 < length vs)%nat) by (destruct vs; [congruence | cbn; lia]).
  assert (Hdiv : forall s : Z,
             py_div_len s (length vs) = Ok (s / Z.of_nat (length vs))).
  { intros s. cbn. destruct (Nat.eqb_spec (length vs) 0); [lia | reflexivity]. }
  pose proof (statistics_by_axis (A := Z) vs _ _ _ _ _ _ _ _ _ _ _ _
                Hlen Hr0 Hr1 Hr2 (Hdiv _) (Hdiv _) (Hdiv _)) as Hstat.
  eexists. split; [exact Hstat|].
  split; [reflexivity|].
  assert (Hmean : forall lo s hi,
             Z.of_nat (length vs) * lo <= s <= Z.of_nat (length vs) * hi ->
             lo <= s / Z.of_nat (length vs) <= hi).
  { intros lo s hi [Hl Hh]. split.
    - apply Z.div_le_lower_bound; lia.
    - apply Z.div_le_upper_bound; lia. }
  intros i Hi.
  destruct i as [|[|[|i]]]; [| | | lia].
  - exists x0, xs0. split; [assumption|]. do 3 (split; [reflexivity|]).
    now apply Hmean.
  - exists x1, xs1. split; [assumption|]. do 3 (split; [reflexivity|]).
    now apply Hmean.
  - exists x2, xs2. split; [assumption|]. do 3 (split; [reflexivity|]).
    now apply Hmean.
Qed.

(** *** Float coordinates

    On floats the sum and the division round to binary64, so the mean the
    model stores is the rounded one: three vertices at 0.1 have the mean
    0x1.999999999999bp-4, one unit in the last place above 0.1. *)
Lemma float_mean_is_rounded :
  let line := "v 0.1 0.1 0.1" ++ LF in
  exists m,
    fst (ObjModel (open_file (line ++ line ++ line))) = Ok m /\
    min m = [Some 0x1.999999999999ap-4; Some 0x1.999999999999ap-4;
             Some 0x1.999999999999ap-4]%float /\
    max m = min m /\
    average m = [0x1.999999999999bp-4; 0x1.999999999999bp-4;
                 0x1.999999999999bp-4]%float.
Proof. vm_compute. eexists. repeat split. Qed.

(** * The claims of the specification *)

(** C1 (the code departs from the claim): [min[i]] and [max[i]] are not the
    extremes of the coordinates once a coordinate equals 0.  The test
    [if not self.min[i]] takes a minimum of 0 for "not set yet", so the
    vertex after it restarts both.  For the vertices (0,0,0), (1,1,1) read
    from an OBJ stream the model has min = max = (1,1,1) and average
    (0.5,0.5,0.5): the minimum is not the smallest coordinate, and the
    average lies below it.  The same happens with the integers of a binary
    STL triangle (0,0,0), (1,1,1), (2,2,2). *)
Theorem C1_zero_coordinate_restarts_min_max :
  fst (ObjModel (open_file ("v 0 0 0" ++ LF ++ "v 1 1 1" ++ LF))) =
  Ok (mkThreeDee [[0; 0; 0]; [1; 1; 1]]%float
                 [0.5; 0.5; 0.5]%float
                 [Some 1; Some 1; Some 1]%float
                 [Some 1; Some 1; Some 1]%float
                 0%float 0%float 0%float) /\
  py_lt 0.5%float 1%float = true /\
  fst (BinaryStlModel 16
         (open_file (zeros 80 ++ bytes [1; 0; 0; 0] ++ zeros 12 ++ zeros 12
                     ++ bytes [1; 0; 0; 0; 1; 0; 0; 0; 1; 0; 0; 0]
                     ++ bytes [2; 0; 0; 0; 2; 0; 0; 0; 2; 0; 0; 0]
                     ++ zeros 2))) =
  Ok (mkThreeDee [[0; 0; 0]; [1; 1; 1]; [2; 2; 2]]
                 [1; 1; 1]
                 [Some 1; Some 1; Some 1]
                 [Some 2; Some 2; Some 2]
                 1 1 1).
Proof. vm_compute. repeat split. Qed.

(** C2 (the code departs from the claim): a field tagged "real" is
    unpacked with the format ["<i"], a signed integer.  The four bytes
    00 00 80 3f are the binary32 number 1.0; the loader returns the integer
    1065353216. *)
Theorem C2_real_field_decoded_as_integer :
  fst (BinaryStlModel__num "real" (open_file (bytes [0; 0; 128; 63])))
  = Ok 1065353216 /\
  spec_real (bytes [0; 0; 128; 63]) = Ok 1%float /\
  PrimFloat.eqb (PyFloat.of_Z 1065353216) 1%float = false.
Proof. vm_compute. repeat split. Qed.

(** C4 (the code departs from the claim): [auto_detect] catches
    [ThreeDeeParseError] (and [MemoryError] around the binary loader) and
    nothing else, so malformed data surfaces as the exception the failing
    operation happened to raise: [ValueError] for a token [float] rejects,
    [IndexError] for a vertex line with two numbers, [struct.error] for a
    text file too short to hold a binary header. *)
Theorem C4_malformed_data_escapes_auto_detect mem_limit :
  fst (auto_detect mem_limit (Some "obj") (open_file ("v 1 2 x" ++ LF)))
  = Raise ValueError /\
  fst (auto_detect mem_limit None (open_file ("v 1 2" ++ LF)))
  = Raise IndexError /\
  fst (auto_detect mem_limit (Some "stl") (open_file ("solid cube" ++ LF)))
  = Raise StructError.
Proof. vm_compute. repeat split. Qed.

(** C5, the claim as it stands, fails: a stream of 84 bytes that declares
    one triangle and holds none makes [BinaryStlModel] raise
    [struct.error], which is not the module's [ThreeDeeParseError]. *)
Lemma C5_counterexample :
  let f := open_file (zeros 80 ++ bytes [1; 0; 0; 0]) in
  declared_triangle_count (data f) = Ok 1 /\
  fst (BinaryStlModel 16 f) = Raise StructError /\
  raises_parse_error (fst (BinaryStlModel 16 f)) = false.
Proof. vm_compute. repeat split. Qed.

(** C5, amended: for a binary STL stream whose declared triangle count
    needs more bytes than the stream holds, [BinaryStlModel] builds no
    model and raises [struct.error] from the first field that comes up
    short, or [MemoryError] when [range] cannot hold the count; neither is
    [ThreeDeeParseError].  The data is untouched and the position stays
    within it.  Any field read that finds fewer bytes than the field's
    width raises [struct.error]. *)
Theorem C5_truncated_stream_raises_struct_error mem_limit f n :
  declared_triangle_count (data f) = Ok n ->
  Z.of_nat (String.length (data f)) < 84 + 50 * n ->
  fst (BinaryStlModel mem_limit f) =
    Raise (if Z.of_N mem_limit <? n then MemoryError else StructError) /\
  raises_parse_error (fst (BinaryStlModel mem_limit f)) = false /\
  data (snd (BinaryStlModel mem_limit f)) = data f /\
  (pos (snd (BinaryStlModel mem_limit f)) <= String.length (data f))%nat /\
  (forall hint g,
      hint = "uint" \/ hint = "real" \/ hint = "short" ->
      (String.length (remaining g) < field_width hint)%nat ->
      fst (BinaryStlModel__num hint g) = Raise StructError).
Proof.
  intros Hcount Hshort.
  pose proof (declared_triangle_count_length _ _ Hcount) as Hlen.
  pose proof (after_header_pos _ _ Hcount) as Hpos.
  assert (Hload : exists e f',
             BinaryStlModel_load mem_limit f = (Raise e, f') /\
             e = (if Z.of_N mem_limit <? n then MemoryError else StructError) /\
             data f' = data f /\ (pos f' <= String.length (data f))%nat).
  { rewrite BinaryStlModel_load_header. unfold bind at 1, lift at 1.
    rewrite Hcount. unfold bind at 1, lift at 1, py_range.
    destruct (Z.of_N mem_limit <? n).
    - exists MemoryError, (after_header f). repeat split. rewrite Hpos. lia.
    - destruct (fixed_width_triangles (seq 0 (Z.to_nat n)) [] (after_header f))
        as (Hd & Hb & Hres);
        [change (data (after_header f)) with (data f); rewrite Hpos; lia|].
      change (data (after_header f)) with (data f) in Hd, Hb, Hres.
      rewrite length_seq, Hpos in Hres.
      replace (84 + Z.to_nat n * 50 <=? String.length (data f))%nat with false
        in Hres by (symmetry; apply Nat.leb_gt; lia).
      destruct (for_each_io _ _ _ _) as [r f'] eqn:Hrun. cbn [fst snd] in *.
      subst r. exists StructError, f'. repeat split; assumption. }
  destruct Hload as (e & f' & Hload & He & Hd & Hb).
  unfold BinaryStlModel. rewrite (ThreeDee_init_raise _ _ _ _ Hload).
  cbn [fst snd]. subst e.
  split; [reflexivity|].
  split; [now destruct (Z.of_N mem_limit <? n)|].
  split; [assumption|]. split; [assumption|].
  intros hint g Hh Hfew.
  destruct (BinaryStlModel__num_read hint g Hh) as (form & -> & _ & Hbad).
  cbn [fst]. apply Hbad. rewrite length_take. lia.
Qed.

Lemma C5_witness :
  let f := open_file (zeros 80 ++ bytes [1; 0; 0; 0]) in
  fst (BinaryStlModel 16 f) =
    Raise (if Z.of_N 16 <? 1 then MemoryError else StructError) /\
  raises_parse_error (fst (BinaryStlModel 16 f)) = false /\
  data (snd (BinaryStlModel 16 f)) = data f /\
  (pos (snd (BinaryStlModel 16 f)) <= String.length (data f))%nat /\
  (forall hint g,
      hint = "uint" \/ hint = "real" \/ hint = "short" ->
      (String.length (remaining g) < field_width hint)%nat ->
      fst (BinaryStlModel__num hint g) = Raise StructError).
Proof.
  apply (C5_truncated_stream_raises_struct_error
           16 (open_file (zeros 80 ++ bytes [1; 0; 0; 0])) 1).
  - vm_compute. reflexivity.
  - vm_compute. reflexivity.
Defined.

(** C6, the claim as it stands, fails: the line ["v 1 2\n"] is turned into
    the two-component vertex (1, 2) without complaint, and building the
    model then raises [IndexError], not the module's exception. *)
Lemma C6_counterexample :
  let line := "v 1 2" ++ LF in
  ObjModel__vector line 3 = Ok [1; 2]%float /\
  fst (ObjModel_load (open_file line)) = Ok [[1; 2]%float] /\
  fst (ObjModel (open_file line)) = Raise IndexError /\
  raises_parse_error (fst (ObjModel (open_file line))) = false.
Proof. vm_compute. repeat split. Qed.

(** C6, amended: when a stream loads (every token of every vertex line
    converts) and one of its vertex lines carries fewer than three numbers
    after the marker, [ObjModel.__vector] returns those numbers as a
    shorter vertex, [load] keeps it, and [ObjModel(fileob)] fails in the
    statistics pass with [IndexError], not with [ThreeDeeParseError].
    When a line carries three or more tokens that all convert, the first
    three are the vertex and the others are dropped. *)
Theorem C6_short_vertex_line_raises_IndexError f line nums :
  In line (PyStr.readlines (remaining f)) ->
  is_vertex_line line = true ->
  py_map PyFloat.float (tokens line) = Ok nums ->
  short_vertex nums ->
  is_ok (fst (ObjModel_load f)) = true ->
  ObjModel__vector line 3 = Ok nums /\
  (exists vs, fst (ObjModel_load f) = Ok vs /\ In nums vs) /\
  fst (ObjModel f) = Raise IndexError /\
  raises_parse_error (fst (ObjModel f)) = false /\
  (forall l a b c extra,
      py_map PyFloat.float (tokens l) = Ok (a :: b :: c :: extra) ->
      ObjModel__vector l 3 = Ok [a; b; c]).
Proof.
  intros Hin Hv Htok Hshort Hok.
  assert (Hvec : ObjModel__vector line 3 = Ok nums).
  { unfold ObjModel__vector. fold (tokens line). rewrite Htok. cbn [rbind].
    f_equal. apply take_ge. unfold short_vertex in Hshort. lia. }
  destruct (ObjModel_load f) as [[vs|e] f'] eqn:Hload; [|discriminate].
  pose proof (ObjModel_load_result f) as Hres. rewrite Hload in Hres.
  cbn [fst] in Hres. symmetry in Hres.
  assert (Hinv : In nums vs).
  { destruct (py_map_In _ _ _ line Hres) as (y & Hy & Hiny).
    - apply filter_In. now split.
    - rewrite Hvec in Hy. now injection Hy as <-. }
  assert (Hobj : fst (ObjModel f) = Raise IndexError).
  { unfold ObjModel. destruct vs as [|v vs]; [destruct Hinv|].
    rewrite (ThreeDee_init_nonempty _ _ _ _ _ Hload). cbn [fst].
    apply statistics_short. cbn [verts].
    apply List.Exists_exists. exists nums. now split. }
  split; [assumption|]. split; [exists vs; now split|].
  split; [assumption|]. split; [now rewrite Hobj|].
  intros l a b c extra Hl.
  unfold ObjModel__vector. fold (tokens l). now rewrite Hl.
Qed.

Lemma C6_witness :
  let line := "v 1 2" ++ LF in
  let f := open_file ("v 4 5 6" ++ LF ++ line) in
  ObjModel__vector line 3 = Ok [1; 2]%float /\
  (exists vs, fst (ObjModel_load f) = Ok vs /\ In [1; 2]%float vs) /\
  fst (ObjModel f) = Raise IndexError /\
  raises_parse_error (fst (ObjModel f)) = false /\
  (forall l a b c extra,
      py_map PyFloat.float (tokens l) = Ok (a :: b :: c :: extra) ->
      ObjModel__vector l 3 = Ok [a; b; c]).
Proof.
  apply (C6_short_vertex_line_raises_IndexError
           (open_file ("v 4 5 6" ++ LF ++ "v 1 2" ++ LF)) ("v 1 2" ++ LF)).
  - vm_compute. right. left. reflexivity.
  - reflexivity.
  - vm_compute. reflexivity.
  - unfold short_vertex. simpl. lia.
  - vm_compute. reflexivity.
Defined.

(** C7, the claim as it stands, fails: a normal line, ["vn 0 0 1\n"],
    is not skipped.  Its first character is [v], so it is read as a vertex
    record and contributes the vertex (0, 0, 1). *)
Lemma C7_counterexample :
  let f := open_file ("vn 0 0 1" ++ LF) in
  is_vertex_line ("vn 0 0 1" ++ LF) = true /\
  fst (ObjModel_load f) = Ok [[0; 0; 1]%float] /\
  fst (ObjModel_load f) <> Ok [].
Proof. vm_compute. repeat split; discriminate. Qed.

(** C7, amended: [ObjModel.load] skips a line exactly when its first
    character is not [v].  The vertices it returns are those of the lines
    that start with [v], one per line and in file order; the lines that
    start with anything else (comments, faces, groups) contribute nothing.
    A line that starts with [v] is a vertex record whatever follows the
    [v], so a [vn] line contributes a vertex too. *)
Theorem C7_lines_are_selected_by_first_character f :
  fst (ObjModel_load f) =
  py_map (fun line => ObjModel__vector line 3)
         (List.filter is_vertex_line (PyStr.readlines (remaining f))) /\
  (forall c rest, is_vertex_line (String c rest) = Ascii.eqb c "v"%char) /\
  (forall line lines acc g,
      line <> EmptyString -> is_vertex_line line = false ->
      ObjModel_load_lines (line :: lines) acc g =
      ObjModel_load_lines lines acc (snd (next_line line g))).
Proof.
  split; [apply ObjModel_load_result|]. split; [reflexivity|].
  intros [|c r] lines acc g Hne Hv; [congruence|].
  cbn [is_vertex_line] in Hv. cbn [ObjModel_load_lines].
  unfold bind at 1. cbn [next_line snd]. now rewrite Hv.
Qed.

(** C8: a parse that finds no vertex builds no model and raises
    [ThreeDeeParseError("Empyt model.")]: an OBJ stream without a line
    that starts with [v], and a binary STL stream that declares 0
    triangles. *)
Theorem C8_no_vertices_is_an_empty_model_error mem_limit f g :
  List.filter is_vertex_line (PyStr.readlines (remaining f)) = [] ->
  declared_triangle_count (data g) = Ok 0 ->
  fst (ObjModel f) = Raise (ThreeDeeParseError "Empyt model.") /\
  fst (BinaryStlModel mem_limit g) = Raise (ThreeDeeParseError "Empyt model.").
Proof.
  intros Hnone Hzero. split.
  - pose proof (ObjModel_load_result f) as Hres. rewrite Hnone in Hres.
    destruct (ObjModel_load f) as [r f'] eqn:Hload. cbn in Hres. subst r.
    unfold ObjModel. now rewrite (ThreeDee_init_empty _ _ _ Hload).
  - assert (Hload : BinaryStlModel_load mem_limit g = (Ok [], after_header g)).
    { rewrite BinaryStlModel_load_header. unfold bind at 1, lift at 1.
      rewrite Hzero. unfold bind at 1, lift at 1, py_range.
      replace (Z.of_N mem_limit <? 0) with false by (symmetry; apply Z.ltb_ge; lia).
      reflexivity. }
    unfold BinaryStlModel. now rewrite (ThreeDee_init_empty _ _ _ Hload).
Qed.

Lemma C8_witness :
  fst (ObjModel (open_file ("# a cube" ++ LF ++ "f 1 2 3" ++ LF)))
  = Raise (ThreeDeeParseError "Empyt model.") /\
  fst (BinaryStlModel 16 (open_file (zeros 80 ++ bytes [0; 0; 0; 0])))
  = Raise (ThreeDeeParseError "Empyt model.").
Proof.
  apply (C8_no_vertices_is_an_empty_model_error 16
           (open_file ("# a cube" ++ LF ++ "f 1 2 3" ++ LF))
           (open_file (zeros 80 ++ bytes [0; 0; 0; 0]))).
  - vm_compute. reflexivity.
  - vm_compute. reflexivity.
Defined.

(** C9: the OBJ text ["v 1 2 3\nv 4 5 6\n"] parses to the vertices
    (1,2,3), (4,5,6) in that order, min (1,2,3), max (4,5,6), average
    (2.5,3.5,4.5) and width, depth and height 3. *)
Theorem C9_two_vertex_obj_scenario :
  fst (ObjModel (open_file ("v 1 2 3" ++ LF ++ "v 4 5 6" ++ LF))) =
  Ok (mkThreeDee [[1; 2; 3]; [4; 5; 6]]%float
                 [2.5; 3.5; 4.5]%float
                 [Some 1; Some 2; Some 3]%float
                 [Some 4; Some 5; Some 6]%float
                 3%float 3%float 3%float).
Proof. vm_compute. reflexivity. Qed.

(** C10: for a hint that is a non-empty string other than ["obj"] and
    ["stl"], [auto_detect] raises the final [ThreeDeeParseError] at once:
    no parser runs and the file object is returned as it was, its
    position and its record of operations included. *)
Theorem C10_unknown_hint_fails_without_touching_the_stream mem_limit f hint :
  hint <> "" -> hint <> "obj" -> hint <> "stl" ->
  auto_detect mem_limit (Some hint) f =
  (Raise (ThreeDeeParseError "Could not successfully parse the model :("), f).
Proof.
  intros Hne Hobj Hstl.
  apply String.eqb_neq in Hne, Hobj, Hstl.
  unfold auto_detect, auto_detect_stl, hint_eq, hint_not.
  rewrite Hne, Hobj, Hstl. reflexivity.
Qed.

Lemma C10_witness :
  auto_detect 16 (Some "ply") (open_file ("v 1 2 3" ++ LF)) =
  (Raise (ThreeDeeParseError "Could not successfully parse the model :("),
   open_file ("v 1 2 3" ++ LF)).
Proof.
  apply (C10_unknown_hint_fails_without_touching_the_stream
           16 (open_file ("v 1 2 3" ++ LF)) "ply"); intros H; discriminate H.
Defined.

(** * Further properties of the loader *)

(** ** Decoding a complete binary stream *)

Lemma take_length_exact w off d :
  (off + w <= String.length d)%nat ->
  String.length (PyStr.take w (PyStr.drop off d)) = w.
Proof. intros Hle. rewrite length_take, length_drop. lia. Qed.

Lemma num_real_at f :
  (pos f + 4 <= String.length (data f))%nat ->
  BinaryStlModel__num "real" f =
  (Ok (signed32 (field_at (data f) (pos f) 4)),
   mkFile (data f) (pos f + 4) (ops f ++ [OpRead 4])).
Proof.
  intros Hle.
  change (BinaryStlModel__num "real" f)
    with (struct_unpack (Some "<i") (PyStr.take 4 (remaining f)),
          mkFile (data f) (pos f + String.length (PyStr.take 4 (remaining f)))
                 (ops f ++ [OpRead 4])).
  unfold remaining, struct_unpack. simpl String.eqb. cbv iota.
  rewrite take_length_exact by assumption. reflexivity.
Qed.

Lemma num_short_at f :
  (pos f + 2 <= String.length (data f))%nat ->
  BinaryStlModel__num "short" f =
  (Ok (field_at (data f) (pos f) 2),
   mkFile (data f) (pos f + 2) (ops f ++ [OpRead 2])).
Proof.
  intros Hle.
  change (BinaryStlModel__num "short" f)
    with (struct_unpack (Some "<H") (PyStr.take 2 (remaining f)),
          mkFile (data f) (pos f + String.length (PyStr.take 2 (remaining f)))
                 (ops f ++ [OpRead 2])).
  unfold remaining, struct_unpack. simpl String.eqb. cbv iota.
  rewrite take_length_exact by assumption. reflexivity.
Qed.

Lemma vector_read_at f :
  (pos f + 12 <= String.length (data f))%nat ->
  BinaryStlModel__vector f =
  (Ok (vector_at (data f) (pos f)),
   mkFile (data f) (pos f + 12) (ops f ++ repeat (OpRead 4) 3)).
Proof.
  intros Hle. unfold BinaryStlModel__vector, range3. cbn [for_each_io].
  unfold bind at 1. unfold bind at 1. rewrite num_real_at by lia.
  cbn [ret]. unfold bind at 1. unfold bind at 1.
  rewrite num_real_at by (cbn [pos data]; lia).
  cbn [ret pos data ops]. unfold bind at 1. unfold bind at 1.
  rewrite num_real_at by (cbn [pos data]; lia).
  cbn [ret pos data ops app]. unfold vector_at.
  repeat rewrite <- app_assoc. repeat rewrite <- Nat.add_assoc. reflexivity.
Qed.

Lemma triangle_read_at verts f :
  (pos f + 50 <= String.length (data f))%nat ->
  BinaryStlModel_triangle verts f =
  (Ok (verts ++ triangle_at (data f) (pos f))%list,
   mkFile (data f) (pos f + 50) (ops f ++ triangle_ops)).
Proof.
  intros Hle. unfold BinaryStlModel_triangle, range3. cbn [for_each_io].
  unfold bind at 1. rewrite vector_read_at by lia.
  unfold bind at 1. unfold bind at 1. unfold bind at 1.
  rewrite vector_read_at by (cbn [pos data]; lia).
  cbn [ret pos data ops]. unfold bind at 1. unfold bind at 1.
  rewrite vector_read_at by (cbn [pos data]; lia).
  cbn [ret pos data ops]. unfold bind at 1. unfold bind at 1.
  rewrite vector_read_at by (cbn [pos data]; lia).
  cbn [ret pos data ops]. unfold bind at 1.
  rewrite num_short_at by (cbn [pos data]; lia).
  cbn [ret pos data ops]. unfold triangle_at, triangle_ops.
  repeat rewrite <- app_assoc. repeat rewrite <- Nat.add_assoc.
  reflexivity.
Qed.

Lemma triangles_read_at {T} (idx : list T) verts f :
  (pos f + 50 * length idx <= String.length (data f))%nat ->
  for_each_io idx (fun _ verts => BinaryStlModel_triangle verts) verts f =
  (Ok (verts ++ triangles_from (data f) (pos f) (length idx))%list,
   mkFile (data f) (pos f + 50 * length idx)
          (ops f ++ triangles_ops (length idx))).
Proof.
  revert verts f. induction idx as [|i idx IH]; intros verts f Hle.
  - cbn. rewrite !app_nil_r, Nat.add_0_r. now destruct f.
  - cbn [for_each_io length triangles_from triangles_ops] in *.
    unfold bind at 1. rewrite triangle_read_at by lia.
    rewrite IH by (cbn [pos data]; lia). cbn [pos data ops].
    rewrite <- !app_assoc. f_equal. f_equal. lia.
Qed.

Lemma length_triangles_from d off k :
  length (triangles_from d off k) = (3 * k)%nat /\
  Forall (fun v => length v = 3%nat) (triangles_from d off k).
Proof.
  revert off. induction k as [|k IH]; intros off; cbn [triangles_from].
  - split; [reflexivity | constructor].
  - destruct (IH (off + 50)%nat) as [Hlen Hall]. split.
    + cbn [triangle_at app length]. rewrite Hlen. lia.
    + cbn [triangle_at app]. repeat (constructor; [reflexivity|]). exact Hall.
Qed.

Lemma nat_of_ascii_bound c : (nat_of_ascii c < 256)%nat.
Proof. apply nat_ascii_bounded. Qed.

Lemma le_unsigned_bounds s :
  0 <= le_unsigned s < 256 ^ Z.of_nat (String.length s).
Proof.
  induction s as [|c r IH]; cbn [le_unsigned String.length].
  - cbn. lia.
  - pose proof (nat_of_ascii_bound c) as Hc.
    rewrite Nat2Z.inj_succ, Z.pow_succ_r by lia. lia.
Qed.

Lemma declared_triangle_count_nonneg d n :
  declared_triangle_count d = Ok n -> 0 <= n < 2 ^ 32.
Proof.
  unfold declared_triangle_count, struct_unpack. simpl String.eqb. cbv iota.
  destruct (Nat.eqb_spec (String.length (PyStr.take 4 (PyStr.drop 80 d))) 4)
    as [Hlen|]; [|discriminate].
  intros [= <-].
  pose proof (le_unsigned_bounds (PyStr.take 4 (PyStr.drop 80 d))) as Hb.
  rewrite Hlen in Hb. exact Hb.
Qed.

(** What [load] returns on a stream that holds every triangle it
    declares. *)
Lemma BinaryStlModel_load_complete mem_limit f n :
  declared_triangle_count (data f) = Ok n ->
  n <= Z.of_N mem_limit ->
  (84 + 50 * Z.to_nat n <= String.length (data f))%nat ->
  BinaryStlModel_load mem_limit f =
  (Ok (triangles_from (data f) 84 (Z.to_nat n)),
   mkFile (data f) (84 + 50 * Z.to_nat n)
          (ops f ++ [OpSeek 80; OpRead 4] ++ triangles_ops (Z.to_nat n))).
Proof.
  intros Hcount Hmem Hlen.
  rewrite BinaryStlModel_load_header. unfold bind at 1, lift at 1.
  rewrite Hcount. unfold bind at 1, lift at 1, py_range.
  replace (Z.of_N mem_limit <? n) with false by (symmetry; apply Z.ltb_ge; lia).
  pose proof (after_header_pos _ _ Hcount) as Hpos.
  rewrite triangles_read_at;
    rewrite ?length_seq, ?Hpos;
    change (data (after_header f)) with (data f); [|lia].
  change (ops (after_header f)) with ((ops f ++ [OpSeek 80]) ++ [OpRead 4])%list.
  cbn [app]. rewrite <- !app_assoc. reflexivity.
Qed.

(** ** The statistics pass as three folds *)

Section SummarizeFacts.
Context {A : Type} `{PyNumber A}.

Lemma statistics_summarize (vs : list (list A)) :
  Forall (fun v => (3 <= length v)%nat) vs ->
  statistics (mkThreeDee vs [py_zero; py_zero; py_zero] [None; None; None]
                         [None; None; None] py_zero py_zero py_zero) =
  summarize vs.
Proof.
  intros Hlen. unfold statistics, accumulate, summarize, axis_run. cbn [verts].
  rewrite accumulate_vertices by assumption.
  destruct (fold_left axis_step (axis 0 vs) _) as [[s0 lo0] hi0].
  destruct (fold_left axis_step (axis 1 vs) _) as [[s1 lo1] hi1].
  destruct (fold_left axis_step (axis 2 vs) _) as [[s2 lo2] hi2].
  cbn [rbind for_each range3]. unfold normalise, extent, axis_extent. cbn.
  destruct (py_div_len s0 (length vs)); cbn; [|reflexivity].
  destruct (py_div_len s1 (length vs)); cbn; [|reflexivity].
  destruct (py_div_len s2 (length vs)); cbn; [|reflexivity].
  destruct lo0, hi0; cbn; try reflexivity;
    destruct lo1, hi1; cbn; try reflexivity;
      destruct lo2, hi2; cbn; reflexivity.
Qed.

(** One more coordinate keeps the bounds among the coordinates seen, and
    sets them. *)
Lemma axis_step_seen seen s lo hi x :
  seen_bounds seen lo hi ->
  exists s' a b,
    axis_step (s, lo, hi) x = (s', Some a, Some b) /\
    In a (seen ++ [x]) /\ In b (seen ++ [x]).
Proof.
  intros Hseen. unfold axis_step.
  assert (Hx : In x (seen ++ [x])) by (apply in_or_app; right; now left).
  destruct lo as [a|], hi as [b|]; cbn [seen_bounds] in Hseen; try contradiction.
  - destruct Hseen as [Ha Hb].
    assert (Ha' : In a (seen ++ [x])) by (apply in_or_app; now left).
    assert (Hb' : In b (seen ++ [x])) by (apply in_or_app; now left).
    destruct (negb (opt_bool (Some a))).
    + eauto 6.
    + destruct (opt_gt (Some a) x), (opt_lt (Some b) x); eauto 6.
  - cbn. eauto 6.
Qed.

Lemma axis_fold_seen xs :
  forall seen s lo hi,
    seen_bounds seen lo hi ->
    exists s' lo' hi',
      fold_left axis_step xs (s, lo, hi) = (s', lo', hi') /\
      seen_bounds (seen ++ xs) lo' hi' /\
      (xs <> [] -> exists a b, lo' = Some a /\ hi' = Some b).
Proof.
  induction xs as [|x xs IH]; intros seen s lo hi Hseen.
  - exists s, lo, hi. rewrite app_nil_r. repeat split; [assumption | congruence].
  - destruct (axis_step_seen seen s lo hi x Hseen) as (s1 & a & b & Hstep & Ha & Hb).
    destruct (IH (seen ++ [x])%list s1 (Some a) (Some b))
      as (s' & lo' & hi' & Hfold & Hs & Hset).
    { cbn. now split. }
    exists s', lo', hi'. cbn [fold_left]. rewrite Hstep.
    split; [exact Hfold|]. rewrite <- app_assoc in Hs. cbn [app] in Hs.
    split; [exact Hs|]. intros _.
    destruct xs as [|y ys].
    + cbn in Hfold. injection Hfold as _ <- <-. eauto.
    + apply Hset. discriminate.
Qed.

(** Every axis of a non-empty vertex list ends with a minimum and a
    maximum that are coordinates of that axis. *)
Lemma axis_run_bounds i (vs : list (list A)) :
  vs <> [] ->
  exists s a b,
    axis_run i vs = (s, Some a, Some b) /\
    In a (axis i vs) /\ In b (axis i vs).
Proof.
  intros Hne. unfold axis_run.
  destruct (axis_fold_seen (axis i vs) [] py_zero None None I)
    as (s & lo & hi & Hfold & Hseen & Hset).
  destruct Hset as (a & b & -> & ->).
  { unfold axis. destruct vs; [congruence | discriminate]. }
  exists s, a, b. split; [exact Hfold|]. exact Hseen.
Qed.

End SummarizeFacts.

(** ** What the constructor returns *)

Section ConstructorFacts.
Context {A : Type} `{PyNumber A}.

(** [__init__] in one equation: the error of [load], the empty-model
    error, [IndexError] for a vertex with fewer than three components, or
    the model computed axis by axis. *)
Lemma ThreeDee_init_summarize (load : M (list (list A))) f :
  ThreeDee_init load f =
  (match fst (load f) with
   | Raise e => Raise e
   | Ok [] => Raise (ThreeDeeParseError "Empyt model.")
   | Ok vs =>
       if forallb (fun v => (3 <=? length v)%nat) vs
       then summarize vs else Raise IndexError
   end, snd (load f)).
Proof.
  destruct (load f) as [[[|v vs]|e] f'] eqn:Hload; cbn [fst snd].
  - now apply ThreeDee_init_empty.
  - rewrite (ThreeDee_init_nonempty _ _ _ _ _ Hload). f_equal.
    destruct (forallb _ (v :: vs)) eqn:Hall.
    + apply statistics_summarize. apply List.Forall_forall. intros u Hu.
      rewrite forallb_forall in Hall. apply Nat.leb_le. now apply Hall.
    + apply statistics_short. cbn [verts].
      apply List.Exists_exists.
      assert (Hex : exists u, In u (v :: vs) /\ (3 <=? length u)%nat = false).
      { clear Hload. induction (v :: vs) as [|u us IH]; [discriminate|].
        cbn [forallb] in Hall. apply andb_false_iff in Hall as [Hu | Hus].
        - exists u. split; [now left | assumption].
        - destruct (IH Hus) as (u' & Hin & Hu'). exists u'. split; [now right | assumption]. }
      destruct Hex as (u & Hin & Hu). exists u. split; [assumption|].
      apply Nat.leb_gt in Hu. exact Hu.
  - now apply ThreeDee_init_raise.
Qed.

(** A model that was built has its vertices as loaded, three entries per
    statistic, and on every axis a minimum and a maximum that are
    coordinates of vertices on that axis. *)
Lemma summarize_invariants (vs : list (list A)) m :
  vs <> [] ->
  summarize vs = Ok m ->
  verts m = vs /\
  length (average m) = 3%nat /\
  forall i, (i < 3)%nat ->
    exists a b,
      min m !! i = Some (Some a) /\ max m !! i = Some (Some b) /\
      In a (axis i vs) /\ In b (axis i vs) /\
      [width m; depth m; height m] !! i = Some (py_abs (py_sub a b)).
Proof.
  intros Hne. unfold summarize.
  destruct (axis_run_bounds 0 vs Hne) as (s0 & a0 & b0 & -> & Ha0 & Hb0).
  destruct (axis_run_bounds 1 vs Hne) as (s1 & a1 & b1 & -> & Ha1 & Hb1).
  destruct (axis_run_bounds 2 vs Hne) as (s2 & a2 & b2 & -> & Ha2 & Hb2).
  destruct (py_div_len s0 (length vs)) as [q0|]; [|discriminate].
  destruct (py_div_len s1 (length vs)) as [q1|]; [|discriminate].
  destruct (py_div_len s2 (length vs)) as [q2|]; [|discriminate].
  cbn. intros [= <-]. cbn.
  split; [reflexivity|]. split; [reflexivity|].
  intros i Hi. destruct i as [|[|[|i]]]; [| | | lia]; eauto 10.
Qed.

End ConstructorFacts.

Lemma summarize_ok {A} `{PyNumber A} (vs : list (list A)) :
  (forall (x : A) n, n <> 0%nat -> exists q, py_div_len x n = Ok q) ->
  vs <> [] ->
  exists m, summarize vs = Ok m.
Proof.
  intros Hdiv Hne. unfold summarize.
  destruct (axis_run_bounds 0 vs Hne) as (s0 & a0 & b0 & -> & _).
  destruct (axis_run_bounds 1 vs Hne) as (s1 & a1 & b1 & -> & _).
  destruct (axis_run_bounds 2 vs Hne) as (s2 & a2 & b2 & -> & _).
  assert (Hn : length vs <> 0%nat) by (destruct vs; [congruence | discriminate]).
  destruct (Hdiv s0 _ Hn) as [q0 ->].
  destruct (Hdiv s1 _ Hn) as [q1 ->].
  destruct (Hdiv s2 _ Hn) as [q2 ->].
  cbn. eauto.
Qed.

Lemma py_div_len_int_ok (x : Z) n :
  n <> 0%nat -> exists q, py_div_len x n = Ok q.
Proof. intros Hn. cbn. destruct (Nat.eqb_spec n 0); [contradiction | eauto]. Qed.

Lemma py_div_len_float_ok (x : float) n :
  n <> 0%nat -> exists q, py_div_len x n = Ok q.
Proof. intros Hn. cbn. destruct (Nat.eqb_spec n 0); [contradiction | eauto]. Qed.

(** *** Integer vertices, zero coordinates included *)

Lemma axis_step_int s lo hi x :
  lo <= hi ->
  exists lo' hi',
    axis_step (s, Some lo, Some hi) x = (s + x, Some lo', Some hi') /\
    lo' <= hi'.
Proof.
  intros Hle. unfold axis_step.
  cbn [opt_bool opt_gt opt_lt py_bool py_gt py_lt py_add PyNumber_int].
  destruct (negb (negb (lo =? 0))).
  - exists x, x. split; [reflexivity | lia].
  - rewrite Z.gtb_ltb.
    destruct (Z.ltb_spec x lo), (Z.ltb_spec hi x);
      eexists _, _; (split; [reflexivity | lia]).
Qed.

Lemma axis_fold_int_ordered xs :
  forall s lo hi,
    lo <= hi ->
    exists lo' hi',
      fold_left axis_step xs (s, Some lo, Some hi) =
      (s + total xs, Some lo', Some hi') /\ lo' <= hi'.
Proof.
  induction xs as [|x xs IH]; intros s lo hi Hle.
  - exists lo, hi. cbn. rewrite Z.add_0_r. now split.
  - destruct (axis_step_int s lo hi x Hle) as (lo1 & hi1 & Hstep & Hle1).
    destruct (IH (s + x) lo1 hi1 Hle1) as (lo' & hi' & Hfold & Hle').
    exists lo', hi'. cbn [fold_left]. rewrite Hstep, Hfold.
    split; [|assumption]. cbn [total fold_right]. fold (total xs).
    f_equal. f_equal. lia.
Qed.

Lemma axis_run_int_ordered i (vs : list (list Z)) :
  vs <> [] ->
  exists lo hi,
    axis_run i vs = (total (axis i vs), Some lo, Some hi) /\ lo <= hi.
Proof.
  intros Hne. unfold axis_run.
  destruct (axis i vs) as [|x xs] eqn:Haxis.
  { unfold axis in Haxis. destruct vs; [congruence | discriminate]. }
  cbn [fold_left]. unfold axis_step at 2.
  cbn [opt_bool negb py_add PyNumber_int py_zero].
  destruct (axis_fold_int_ordered xs (0 + x) x x ltac:(lia))
    as (lo & hi & Hfold & Hle).
  exists lo, hi. rewrite Hfold. split; [|assumption].
  cbn [total fold_right]. fold (total xs). repeat (f_equal; try lia).
Qed.

(** ** ObjModel and the file object *)

Lemma only_iterates_refl ops0 : only_iterates ops0 ops0.
Proof. exists 0%nat. cbn. now rewrite app_nil_r. Qed.

Lemma only_iterates_next ops0 ops1 :
  only_iterates (ops0 ++ [OpNext]) ops1 -> only_iterates ops0 ops1.
Proof.
  intros [k ->]. exists (S k). rewrite <- app_assoc. reflexivity.
Qed.

Lemma ObjModel_load_lines_iterates lines acc f :
  data (snd (ObjModel_load_lines lines acc f)) = data f /\
  only_iterates (ops f) (ops (snd (ObjModel_load_lines lines acc f))).
Proof.
  revert acc f. induction lines as [|line rest IH]; intros acc f.
  - cbn. split; [reflexivity|]. now exists 1%nat.
  - cbn [ObjModel_load_lines]. unfold bind at 1. cbn [next_line].
    set (f1 := mkFile _ _ _).
    assert (Hrest : forall acc',
               data (snd (ObjModel_load_lines rest acc' f1)) = data f /\
               only_iterates (ops f) (ops (snd (ObjModel_load_lines rest acc' f1)))).
    { intros acc'. destruct (IH acc' f1) as [Hd Ho].
      split; [exact Hd|]. apply only_iterates_next. exact Ho. }
    assert (Hstop : data f1 = data f /\ only_iterates (ops f) (ops f1)).
    { split; [reflexivity|]. now exists 1%nat. }
    destruct line as [|c r]; [exact Hstop|].
    destruct (Ascii.eqb c "v"); [|apply Hrest].
    unfold bind, lift.
    destruct (ObjModel__vector (String c r) 3); [apply Hrest | exact Hstop].
Qed.

Lemma ObjModel_iterates f :
  data (snd (ObjModel f)) = data f /\
  only_iterates (ops f) (ops (snd (ObjModel f))).
Proof.
  unfold ObjModel. rewrite ThreeDee_init_summarize. cbn [snd].
  apply ObjModel_load_lines_iterates.
Qed.

Lemma ObjModel_ok_consumes f m f' :
  ObjModel f = (Ok m, f') -> remaining f' = EmptyString.
Proof.
  unfold ObjModel. rewrite ThreeDee_init_summarize.
  destruct (ObjModel_load f) as [[vs|e] g] eqn:Hload; cbn [fst snd].
  - intros [= _ <-]. now destruct (ObjModel_load_state _ _ _ Hload).
  - discriminate.
Qed.

(** ** auto_detect, candidate by candidate *)

Lemma auto_detect_obj mem_limit f :
  auto_detect mem_limit (Some "obj") f =
  (match fst (ObjModel f) with
   | Ok m => Ok (an_ObjModel m)
   | Raise e => Raise (if is_ThreeDeeParseError e then unrecognized else e)
   end, snd (ObjModel f)).
Proof.
  unfold auto_detect, auto_detect_stl. cbn [hint_eq hint_not String.eqb Ascii.eqb Bool.eqb orb].
  unfold try_except, fmap, bind, ret, raise.
  destruct (ObjModel f) as [[m|e] f']; cbn [fst snd]; [reflexivity|].
  now destruct (is_ThreeDeeParseError e).
Qed.

(** After a failed text attempt the outcome is the binary loader's. *)
Lemma auto_detect_stl_after_failure mem_limit hint f msg f1 :
  ObjModel f = (Raise (ThreeDeeParseError msg), f1) ->
  hint_eq hint "stl" || hint_not hint = true ->
  fst (auto_detect_stl mem_limit hint f) =
  match fst (BinaryStlModel mem_limit f) with
  | Ok m => Ok (a_BinaryStlModel m)
  | Raise e => Raise (if is_ThreeDeeParseError e || is_MemoryError e
                      then unrecognized else e)
  end.
Proof.
  intros Hobj Hhint. unfold auto_detect_stl. rewrite Hhint.
  unfold try_except at 1, fmap at 1, bind at 1. rewrite Hobj.
  cbn [is_ThreeDeeParseError]. unfold try_except, fmap, bind.
  destruct (ObjModel_parse_error _ _ _ Hobj) as [Hload _].
  destruct (ObjModel_load_state _ _ _ Hload) as [Hd _].
  rewrite <- (BinaryStlModel_position_independent mem_limit f1 f Hd).
  destruct (BinaryStlModel mem_limit f1) as [[m|e] g]; cbn [fst]; [reflexivity|].
  now destruct (is_ThreeDeeParseError e || is_MemoryError e).
Qed.

Lemma auto_detect_no_hint_after_failure mem_limit hint f msg f1 :
  ObjModel f = (Raise (ThreeDeeParseError msg), f1) ->
  hint_not hint = true ->
  fst (auto_detect mem_limit hint f) = fst (auto_detect_stl mem_limit hint f).
Proof.
  intros Hobj Hhint.
  assert (Hstl : hint_eq hint "stl" || hint_not hint = true)
    by (rewrite Hhint; apply orb_true_r).
  unfold auto_detect. rewrite Hhint, orb_true_r.
  unfold try_except at 1, fmap at 1, bind at 1. rewrite Hobj.
  cbn [is_ThreeDeeParseError].
  destruct (ObjModel_parse_error _ _ _ Hobj) as [Hload _].
  destruct (ObjModel_load_state _ _ _ Hload) as [Hd Hrem].
  pose proof (ObjModel_nothing_left f1 Hrem) as Hagain.
  destruct (ObjModel f1) as [r1 f2] eqn:Hobj1. cbn [fst] in Hagain. subst r1.
  rewrite (auto_detect_stl_after_failure _ _ _ _ _ Hobj1 Hstl).
  rewrite (auto_detect_stl_after_failure _ _ _ _ _ Hobj Hstl).
  now rewrite (BinaryStlModel_position_independent mem_limit f1 f Hd).
Qed.

(** ** Only the bytes ahead matter *)

Lemma drop_add p k d : PyStr.drop (p + k) d = PyStr.drop k (PyStr.drop p d).
Proof.
  revert d. induction p as [|p IH]; intros d; cbn; [reflexivity|].
  destruct d as [|c r]; [now destruct k | apply IH].
Qed.

Lemma reads_ahead_ret {A} (a : A) : reads_ahead (ret a).
Proof. intros f g Hfg. now split. Qed.

Lemma reads_ahead_raise {A} e : reads_ahead (@raise A e).
Proof. intros f g Hfg. now split. Qed.

Lemma reads_ahead_lift {A} (r : result A) : reads_ahead (lift r).
Proof. intros f g Hfg. now split. Qed.

Lemma reads_ahead_read size : reads_ahead (read size).
Proof.
  intros f g Hfg. unfold same_rest in *. unfold read. cbn [fst snd].
  rewrite Hfg. split; [reflexivity|].
  unfold remaining in *. cbn [data pos]. rewrite !drop_add. now rewrite Hfg.
Qed.

Lemma reads_ahead_bind {A B} (m : M A) (k : A -> M B) :
  reads_ahead m -> (forall a, reads_ahead (k a)) -> reads_ahead (bind m k).
Proof.
  intros Hm Hk f g Hfg. unfold bind.
  destruct (Hm f g Hfg) as [Hr Hs].
  destruct (m f) as [[a|e] f1], (m g) as [[b|e'] g1]; cbn [fst snd] in *;
    try discriminate.
  - injection Hr as <-. now apply Hk.
  - injection Hr as <-. now split.
Qed.

Lemma reads_ahead_for_each_io {T S} (xs : list T) (body : T -> S -> M S) s :
  (forall x s, reads_ahead (body x s)) -> reads_ahead (for_each_io xs body s).
Proof.
  intros Hbody; revert s; induction xs as [|x xs IH]; intros s; cbn.
  - apply reads_ahead_ret.
  - apply reads_ahead_bind; auto.
Qed.

Lemma reads_ahead_num hint : reads_ahead (BinaryStlModel__num hint).
Proof.
  unfold BinaryStlModel__num.
  destruct (negb _); [apply reads_ahead_raise|].
  destruct (if String.eqb hint "uint" then _ else _) as [form bits].
  apply reads_ahead_bind; [apply reads_ahead_read | intros s; apply reads_ahead_lift].
Qed.

Lemma reads_ahead_vector : reads_ahead BinaryStlModel__vector.
Proof.
  apply reads_ahead_for_each_io. intros _ acc.
  apply reads_ahead_bind; [apply reads_ahead_num | intros x; apply reads_ahead_ret].
Qed.

Lemma reads_ahead_triangle verts : reads_ahead (BinaryStlModel_triangle verts).
Proof.
  unfold BinaryStlModel_triangle.
  apply reads_ahead_bind; [apply reads_ahead_vector | intros _].
  apply reads_ahead_bind.
  - apply reads_ahead_for_each_io. intros _ vs.
    apply reads_ahead_bind; [apply reads_ahead_vector | intros v; apply reads_ahead_ret].
  - intros vs. apply reads_ahead_bind; [apply reads_ahead_num | intros _; apply reads_ahead_ret].
Qed.

Lemma BinaryStlModel_from_offset_80 mem_limit f g :
  PyStr.drop 80 (data f) = PyStr.drop 80 (data g) ->
  fst (BinaryStlModel mem_limit f) = fst (BinaryStlModel mem_limit g).
Proof.
  intros Hd.
  set (rest := (let! triangle_count := BinaryStlModel__num "uint" in
                let! idx := lift (py_range mem_limit triangle_count) in
                for_each_io idx (fun _ verts => BinaryStlModel_triangle verts) [])%io).
  assert (Hrest : reads_ahead (ThreeDee_init rest)).
  { unfold ThreeDee_init. apply reads_ahead_bind.
    - subst rest.
      apply reads_ahead_bind; [apply reads_ahead_num | intros n].
      apply reads_ahead_bind; [apply reads_ahead_lift | intros idx].
      apply reads_ahead_for_each_io. intros _ vs. apply reads_ahead_triangle.
    - intros vs. cbv zeta.
      destruct (Nat.eqb _ _); [apply reads_ahead_raise | apply reads_ahead_lift]. }
  change (BinaryStlModel mem_limit f)
    with (ThreeDee_init rest (mkFile (data f) 80 (ops f ++ [OpSeek 80]))).
  change (BinaryStlModel mem_limit g)
    with (ThreeDee_init rest (mkFile (data g) 80 (ops g ++ [OpSeek 80]))).
  apply Hrest. exact Hd.
Qed.

(** ** Lines, white space and tokens *)

Lemma all_space_rstrip w : all_space w = true -> PyStr.rstrip w = EmptyString.
Proof.
  induction w as [|c r IH]; cbn; [reflexivity|].
  intros Hw. apply andb_true_iff in Hw as [Hc Hr].
  now rewrite (IH Hr), Hc.
Qed.

Lemma rstrip_app_space s w :
  all_space w = true -> PyStr.rstrip (s ++ w) = PyStr.rstrip s.
Proof.
  intros Hw. induction s as [|c r IH]; cbn.
  - now apply all_space_rstrip.
  - now rewrite IH.
Qed.

Lemma lstrip_app_space s w :
  all_space w = true ->
  PyStr.rstrip (PyStr.lstrip (s ++ w)) = PyStr.rstrip (PyStr.lstrip s).
Proof.
  intros Hw. induction s as [|c r IH]; cbn.
  - assert (Hl : forall u, all_space u = true -> PyStr.lstrip u = EmptyString).
    { induction u as [|c u IHu]; cbn; [reflexivity|].
      intros Hu. apply andb_true_iff in Hu as [Hc Hu]. rewrite Hc. now apply IHu. }
    now rewrite (Hl w Hw).
  - destruct (PyStr.isspace c); [exact IH|].
    change (String c (r ++ w)) with (String c r ++ w)%string.
    now apply rstrip_app_space.
Qed.

Lemma strip_app_space s w :
  all_space w = true -> PyStr.strip (s ++ w) = PyStr.strip s.
Proof. intros Hw. unfold PyStr.strip. now apply lstrip_app_space. Qed.

Lemma split_nonempty sep s : PyStr.split sep s <> [].
Proof.
  destruct s as [|c r]; cbn; [discriminate|].
  destruct (Ascii.eqb c sep); [discriminate|].
  destruct (PyStr.split sep r); discriminate.
Qed.

(** [(a + sep + b).split(sep) == a.split(sep) + b.split(sep)] *)
Lemma split_app sep a b :
  PyStr.split sep (a ++ String sep b) = (PyStr.split sep a ++ PyStr.split sep b)%list.
Proof.
  induction a as [|c a IH]; cbn.
  - now rewrite Ascii.eqb_refl.
  - destruct (Ascii.eqb c sep).
    + now rewrite IH.
    + rewrite IH. pose proof (split_nonempty sep a) as Hne.
      destruct (PyStr.split sep a) as [|t ts]; [congruence | reflexivity].
Qed.

Lemma py_map_length {T U} (f : T -> result U) xs ys :
  py_map f xs = Ok ys -> length ys = length xs.
Proof.
  revert ys; induction xs as [|x xs IH]; intros ys; cbn.
  - now intros [= <-].
  - destruct (f x) as [y|]; [|discriminate]. cbn.
    destruct (py_map f xs) as [ys'|]; [|discriminate]. cbn.
    intros [= <-]. cbn. now rewrite (IH ys').
Qed.

Lemma py_map_fails {T U} (f : T -> result U) xs x :
  In x xs -> is_ok (f x) = false -> is_ok (py_map f xs) = false.
Proof.
  intros Hin Hx. induction xs as [|x' xs IH]; [destruct Hin|].
  cbn. destruct (f x') as [y|] eqn:Hfx; [|reflexivity]. cbn.
  destruct Hin as [-> | Hin]; [rewrite Hfx in Hx; discriminate|].
  specialize (IH Hin). destruct (py_map f xs); [discriminate | reflexivity].
Qed.

(** ** Bytes after the last record *)

Lemma drop_app off d e :
  (off <= String.length d)%nat -> PyStr.drop off (d ++ e) = (PyStr.drop off d ++ e)%string.
Proof.
  revert d. induction off as [|off IH]; intros d Hle.
  - now destruct d.
  - destruct d as [|c r]; cbn in *; [lia|]. apply IH. lia.
Qed.

Lemma take_app w s e :
  (w <= String.length s)%nat -> PyStr.take w (s ++ e) = PyStr.take w s.
Proof.
  revert s. induction w as [|w IH]; intros s Hle.
  - now destruct s.
  - destruct s as [|c r]; cbn in *; [lia|]. f_equal. apply IH. lia.
Qed.

Lemma field_at_app d e off w :
  (off + w <= String.length d)%nat -> field_at (d ++ e) off w = field_at d off w.
Proof.
  intros Hle. unfold field_at.
  rewrite drop_app by lia. rewrite take_app; [reflexivity|].
  rewrite length_drop. lia.
Qed.

Lemma triangles_from_app d e off k :
  (off + 50 * k <= String.length d)%nat ->
  triangles_from (d ++ e) off k = triangles_from d off k.
Proof.
  revert off. induction k as [|k IH]; intros off Hle; [reflexivity|].
  cbn [triangles_from]. rewrite IH by lia. f_equal.
  unfold triangle_at, vector_at.
  repeat rewrite field_at_app by lia. reflexivity.
Qed.

Lemma declared_triangle_count_app d e n :
  declared_triangle_count d = Ok n -> declared_triangle_count (d ++ e) = Ok n.
Proof.
  intros Hn. pose proof (declared_triangle_count_length _ _ Hn) as Hlen.
  unfold declared_triangle_count in *.
  rewrite drop_app by lia. rewrite take_app; [exact Hn|].
  rewrite length_drop. lia.
Qed.

Lemma length_string_app (a b : string) :
  String.length (a ++ b) = (String.length a + String.length b)%nat.
Proof. induction a as [|c a IH]; cbn; [reflexivity | now rewrite IH]. Qed.

(** *** When the binary loader succeeds *)

Lemma BinaryStlModel_complete mem_limit f k :
  declared_triangle_count (data f) = Ok (Z.of_nat k) ->
  (1 <= k <= N.to_nat mem_limit)%nat ->
  (84 + 50 * k <= String.length (data f))%nat ->
  BinaryStlModel mem_limit f =
  (summarize (triangles_from (data f) 84 k),
   mkFile (data f) (84 + 50 * k)
          (ops f ++ [OpSeek 80; OpRead 4] ++ triangles_ops k)) /\
  exists m, summarize (triangles_from (data f) 84 k) = Ok m.
Proof.
  intros Hcount Hk Hlen.
  assert (Hload : BinaryStlModel_load mem_limit f =
                  (Ok (triangles_from (data f) 84 k),
                   mkFile (data f) (84 + 50 * k)
                          (ops f ++ [OpSeek 80; OpRead 4] ++ triangles_ops k))).
  { rewrite (BinaryStlModel_load_complete mem_limit f (Z.of_nat k));
      rewrite ?Nat2Z.id; try assumption; [reflexivity | lia]. }
  destruct (length_triangles_from (data f) 84 k) as [Hn Hall].
  assert (Hne : triangles_from (data f) 84 k <> []).
  { intros Heq. rewrite Heq in Hn. cbn in Hn. lia. }
  split.
  - unfold BinaryStlModel. rewrite ThreeDee_init_summarize, Hload. cbn [fst snd].
    f_equal.
    destruct (triangles_from (data f) 84 k) as [|v vs] eqn:Hvs; [congruence|].
    replace (forallb _ (v :: vs)) with true; [reflexivity|].
    symmetry. apply forallb_forall. intros u Hu.
    rewrite List.Forall_forall in Hall. rewrite (Hall u Hu). reflexivity.
  - apply summarize_ok; [apply py_div_len_int_ok | exact Hne].
Qed.

Lemma BinaryStlModel_ok_inv mem_limit f m :
  fst (BinaryStlModel mem_limit f) = Ok m ->
  exists k,
    declared_triangle_count (data f) = Ok (Z.of_nat k) /\
    (1 <= k <= N.to_nat mem_limit)%nat /\
    (84 + 50 * k <= String.length (data f))%nat.
Proof.
  unfold BinaryStlModel. rewrite ThreeDee_init_summarize. cbn [fst].
  rewrite BinaryStlModel_load_header. unfold bind at 1, lift at 1.
  destruct (declared_triangle_count (data f)) as [n|e] eqn:Hcount;
    [|discriminate].
  pose proof (declared_triangle_count_nonneg _ _ Hcount) as Hn.
  pose proof (declared_triangle_count_length _ _ Hcount) as Hlen.
  pose proof (after_header_pos _ _ Hcount) as Hpos.
  unfold bind at 1, lift at 1, py_range.
  destruct (Z.ltb_spec (Z.of_N mem_limit) n) as [Hbig|Hfit]; [discriminate|].
  destruct (fixed_width_triangles (seq 0 (Z.to_nat n)) [] (after_header f))
    as (_ & _ & Hres);
    [change (data (after_header f)) with (data f); rewrite Hpos; lia|].
  change (data (after_header f)) with (data f) in Hres.
  rewrite length_seq, Hpos in Hres.
  destruct (84 + Z.to_nat n * 50 <=? String.length (data f))%nat eqn:Hle.
  - apply Nat.leb_le in Hle. intros Hok.
    exists (Z.to_nat n). rewrite Z2Nat.id by lia.
    split; [reflexivity|]. split; [|lia]. split; [|lia].
    destruct (Z.to_nat n) as [|k] eqn:Hk; [|lia].
    exfalso. cbn in Hok. discriminate Hok.
  - rewrite Hres. discriminate.
Qed.

Lemma summarize_int (vs : list (list Z)) m :
  vs <> [] ->
  summarize vs = Ok m ->
  verts m = vs /\
  forall i, (i < 3)%nat ->
    exists lo hi,
      min m !! i = Some (Some lo) /\ max m !! i = Some (Some hi) /\
      lo <= hi /\
      average m !! i = Some (total (axis i vs) / Z.of_nat (length vs)) /\
      [width m; depth m; height m] !! i = Some (hi - lo).
Proof.
  intros Hne. unfold summarize.
  destruct (axis_run_int_ordered 0 vs Hne) as (lo0 & hi0 & -> & Hle0).
  destruct (axis_run_int_ordered 1 vs Hne) as (lo1 & hi1 & -> & Hle1).
  destruct (axis_run_int_ordered 2 vs Hne) as (lo2 & hi2 & -> & Hle2).
  assert (Hn : length vs <> 0%nat) by (destruct vs; [congruence | discriminate]).
  cbn [py_div_len PyNumber_int].
  destruct (Nat.eqb_spec (length vs) 0) as [|_]; [contradiction|].
  cbn [rbind axis_extent py_abs py_sub]. intros [= <-]. cbn [verts min max average width depth height].
  split; [reflexivity|].
  assert (Habs : forall lo hi, lo <= hi -> Z.abs (lo - hi) = hi - lo) by (intros; lia).
  intros i Hi. destruct i as [|[|[|i]]]; [| | | lia].
  - exists lo0, hi0. cbn. rewrite (Habs _ _ Hle0). auto.
  - exists lo1, hi1. cbn. rewrite (Habs _ _ Hle1). auto.
  - exists lo2, hi2. cbn. rewrite (Habs _ _ Hle2). auto.
Qed.

Lemma BinaryStlModel_ok_summarize mem_limit f m :
  fst (BinaryStlModel mem_limit f) = Ok m ->
  verts m <> [] /\ summarize (verts m) = Ok m.
Proof.
  intros Hm.
  destruct (BinaryStlModel_ok_inv _ _ _ Hm) as (k & Hcount & Hk & Hlen).
  destruct (BinaryStlModel_complete mem_limit f k Hcount Hk Hlen) as [Heq _].
  rewrite Heq in Hm. cbn [fst] in Hm.
  destruct (length_triangles_from (data f) 84 k) as [Hn _].
  assert (Hne : triangles_from (data f) 84 k <> []).
  { intros Hnil. rewrite Hnil in Hn. cbn in Hn. lia. }
  destruct (summarize_int _ _ Hne Hm) as [Hv _].
  rewrite Hv. now split.
Qed.

(** ** Vertex lines *)

Lemma ObjModel__vector_length line n v :
  ObjModel__vector line n = Ok v ->
  length v = Nat.min n (length (tokens line)).
Proof.
  unfold ObjModel__vector. fold (tokens line).
  destruct (py_map PyFloat.float (tokens line)) as [nums|] eqn:Hmap; [|discriminate].
  cbn. intros [= <-]. rewrite List.length_firstn. now rewrite (py_map_length _ _ _ Hmap).
Qed.

Lemma py_map_Forall {T U} (f : T -> result U) (P : U -> Prop) xs ys :
  (forall x y, f x = Ok y -> P y) ->
  py_map f xs = Ok ys -> Forall P ys.
Proof.
  intros Hf. revert ys; induction xs as [|x xs IH]; intros ys; cbn.
  - intros [= <-]. constructor.
  - destruct (f x) as [y|] eqn:Hfx; [|discriminate]. cbn.
    destruct (py_map f xs) as [ys'|]; [|discriminate]. cbn.
    intros [= <-]. constructor; [now apply (Hf x) | now apply IH].
Qed.

Lemma ObjModel_load_at_most_three f vs :
  fst (ObjModel_load f) = Ok vs -> Forall (fun v => (length v <= 3)%nat) vs.
Proof.
  rewrite ObjModel_load_result.
  apply py_map_Forall. intros line v Hv.
  rewrite (ObjModel__vector_length _ _ _ Hv). lia.
Qed.

Lemma ObjModel_no_vertex_lines f :
  List.filter is_vertex_line (PyStr.readlines (remaining f)) = [] ->
  exists f1, ObjModel f = (Raise (ThreeDeeParseError "Empyt model."), f1).
Proof.
  intros Hnone. pose proof (ObjModel_load_result f) as Hres. rewrite Hnone in Hres.
  destruct (ObjModel_load f) as [r f'] eqn:Hload. cbn in Hres. subst r.
  exists f'. unfold ObjModel. now apply ThreeDee_init_empty.
Qed.

Lemma BinaryStlModel_oversized mem_limit f n :
  declared_triangle_count (data f) = Ok n ->
  Z.of_N mem_limit < n ->
  fst (BinaryStlModel mem_limit f) = Raise MemoryError.
Proof.
  intros Hcount Hbig. unfold BinaryStlModel. rewrite ThreeDee_init_summarize.
  cbn [fst]. rewrite BinaryStlModel_load_header. unfold bind at 1, lift at 1.
  rewrite Hcount. unfold bind at 1, lift at 1, py_range.
  replace (Z.of_N mem_limit <? n) with true by (symmetry; apply Z.ltb_lt; lia).
  reflexivity.
Qed.

(** ** The exceptions of the loaders *)

Lemma ObjModel_raises f e :
  fst (ObjModel f) = Raise e ->
  e = ThreeDeeParseError "Empyt model." \/ e = ValueError \/ e = IndexError.
Proof.
  unfold ObjModel. rewrite ThreeDee_init_summarize. cbn [fst].
  destruct (fst (ObjModel_load f)) as [[|v vs]|e'] eqn:Hload.
  - intros [= <-]. now left.
  - destruct (forallb _ (v :: vs)).
    + destruct (summarize_ok (A := float) (v :: vs) py_div_len_float_ok
                  ltac:(discriminate))
        as [m ->]. discriminate.
    + intros [= <-]. right. now right.
  - intros [= <-]. right. left. symmetry.
    apply (ObjModel_load_raises f). exact Hload.
Qed.

Lemma BinaryStlModel_raises mem_limit f e :
  fst (BinaryStlModel mem_limit f) = Raise e ->
  e = ThreeDeeParseError "Empyt model." \/ e = StructError \/ e = MemoryError.
Proof.
  unfold BinaryStlModel. rewrite ThreeDee_init_summarize. cbn [fst].
  rewrite BinaryStlModel_load_header. unfold bind at 1, lift at 1.
  destruct (declared_triangle_count (data f)) as [n|e'] eqn:Hcount.
  - pose proof (declared_triangle_count_nonneg _ _ Hcount) as Hn.
    pose proof (declared_triangle_count_length _ _ Hcount) as Hlen.
    pose proof (after_header_pos _ _ Hcount) as Hpos.
    unfold bind at 1, lift at 1, py_range.
    destruct (Z.ltb_spec (Z.of_N mem_limit) n) as [Hbig|Hfit].
    { intros [= <-]. right. now right. }
    destruct (84 + 50 * Z.to_nat n <=? String.length (data f))%nat eqn:Hle.
    + apply Nat.leb_le in Hle.
      rewrite triangles_read_at;
        rewrite ?length_seq, ?Hpos;
        change (data (after_header f)) with (data f); [|lia].
      cbn [fst].
      destruct (length_triangles_from (data f) 84 (Z.to_nat n)) as [Hk Hall].
      destruct (triangles_from (data f) 84 (Z.to_nat n)) as [|v vs] eqn:Hvs.
      * cbn [app]. intros [= <-]. now left.
      * cbn [app]. replace (forallb _ (v :: vs)) with true.
        -- destruct (summarize_ok (A := Z) (v :: vs) py_div_len_int_ok
                     ltac:(discriminate))
             as [m ->]. discriminate.
        -- symmetry. apply forallb_forall. intros u Hu.
           rewrite List.Forall_forall in Hall. now rewrite (Hall u Hu).
    + apply Nat.leb_gt in Hle.
      destruct (fixed_width_triangles (seq 0 (Z.to_nat n)) [] (after_header f))
        as (_ & _ & Hres);
        [change (data (after_header f)) with (data f); rewrite Hpos; lia|].
      change (data (after_header f)) with (data f) in Hres.
      rewrite length_seq, Hpos in Hres.
      replace (84 + Z.to_nat n * 50 <=? String.length (data f))%nat with false
        in Hres by (symmetry; apply Nat.leb_gt; lia).
      rewrite Hres. intros [= <-]. right. now left.
  - intros [= <-]. right. left.
    unfold declared_triangle_count, struct_unpack in Hcount.
    simpl String.eqb in Hcount. cbv iota in Hcount.
    destruct (Nat.eqb _ _) in Hcount; [discriminate|]. now injection Hcount as <-.
Qed.

(** ** Running a loader again *)

Lemma keeps_data_bind {A B} (m : M A) (k : A -> M B) :
  keeps_data m -> (forall a, keeps_data (k a)) -> keeps_data (bind m k).
Proof.
  intros Hm Hk f. unfold bind. specialize (Hm f).
  destruct (m f) as [[a|e] f1]; cbn [snd] in *; [|assumption].
  now rewrite Hk.
Qed.

Lemma keeps_data_for_each_io {T S} (xs : list T) (body : T -> S -> M S) s :
  (forall x s, keeps_data (body x s)) -> keeps_data (for_each_io xs body s).
Proof.
  intros Hbody; revert s; induction xs as [|x xs IH]; intros s; cbn.
  - now intros f.
  - apply keeps_data_bind; auto.
Qed.

Lemma keeps_data_num hint : keeps_data (BinaryStlModel__num hint).
Proof.
  unfold BinaryStlModel__num.
  destruct (negb _); [now intros f|].
  destruct (if String.eqb hint "uint" then _ else _) as [form bits].
  apply keeps_data_bind; [now intros f | intros s; now intros f].
Qed.

Lemma keeps_data_vector : keeps_data BinaryStlModel__vector.
Proof.
  apply keeps_data_for_each_io. intros _ acc.
  apply keeps_data_bind; [apply keeps_data_num | intros x; now intros f].
Qed.

Lemma keeps_data_triangle verts : keeps_data (BinaryStlModel_triangle verts).
Proof.
  unfold BinaryStlModel_triangle.
  apply keeps_data_bind; [apply keeps_data_vector | intros _].
  apply keeps_data_bind.
  - apply keeps_data_for_each_io. intros _ vs.
    apply keeps_data_bind; [apply keeps_data_vector | intros v; now intros f].
  - intros vs. apply keeps_data_bind; [apply keeps_data_num | intros _; now intros f].
Qed.

Lemma keeps_data_BinaryStlModel mem_limit : keeps_data (BinaryStlModel mem_limit).
Proof.
  intros f. unfold BinaryStlModel. rewrite ThreeDee_init_summarize. cbn [snd].
  revert f. unfold BinaryStlModel_load.
  apply keeps_data_bind; [now intros f | intros _].
  apply keeps_data_bind; [apply keeps_data_num | intros n].
  apply keeps_data_bind; [now intros f | intros idx].
  apply keeps_data_for_each_io. intros _ vs. apply keeps_data_triangle.
Qed.

Lemma ObjModel_from_position f g :
  remaining f = remaining g -> fst (ObjModel f) = fst (ObjModel g).
Proof.
  intros Hrem. unfold ObjModel. rewrite !ThreeDee_init_summarize. cbn [fst].
  now rewrite !ObjModel_load_result, Hrem.
Qed.

(** * Further properties, stated *)

(** X1: a number [BinaryStlModel.__num] returns lies in the range of its
    format (unsigned 32-bit for "uint", signed 32-bit for "real", unsigned
    16-bit for "short"), the hint is one of these three, and the position
    has moved by exactly the width of the field. *)
Theorem X1_num_range_and_width hint f v f' :
  BinaryStlModel__num hint f = (Ok v, f') ->
  data f' = data f /\
  pos f' = (pos f + field_width hint)%nat /\
  ((hint = "uint" /\ 0 <= v < 2 ^ 32) \/
   (hint = "real" /\ - 2 ^ 31 <= v < 2 ^ 31) \/
   (hint = "short" /\ 0 <= v < 2 ^ 16)).
Proof.
  assert (Hb : forall w, 0 <= le_unsigned (PyStr.take w (remaining f))
                         < 256 ^ Z.of_nat (String.length (PyStr.take w (remaining f))))
    by (intros w; apply le_unsigned_bounds).
  destruct (String.eqb hint "uint") eqn:E1;
    [|destruct (String.eqb hint "real") eqn:E2;
      [|destruct (String.eqb hint "short") eqn:E3]].
  - apply String.eqb_eq in E1. subst hint.
    change (BinaryStlModel__num "uint" f)
      with (struct_unpack (Some "<I") (PyStr.take 4 (remaining f)),
            mkFile (data f) (pos f + String.length (PyStr.take 4 (remaining f)))
                   (ops f ++ [OpRead 4])).
    unfold struct_unpack. simpl String.eqb. cbv iota.
    destruct (Nat.eqb_spec (String.length (PyStr.take 4 (remaining f))) 4)
      as [Hlen|]; [|discriminate].
    specialize (Hb 4%nat). rewrite Hlen in *.
    set (u := le_unsigned (PyStr.take 4 (remaining f))) in *.
    intros [= <- <-]. cbn [data pos].
    split; [reflexivity|]. split; [reflexivity|]. left. split; [reflexivity|].
    change (2 ^ 32) with (256 ^ Z.of_nat 4). exact Hb.
  - apply String.eqb_eq in E2. subst hint.
    change (BinaryStlModel__num "real" f)
      with (struct_unpack (Some "<i") (PyStr.take 4 (remaining f)),
            mkFile (data f) (pos f + String.length (PyStr.take 4 (remaining f)))
                   (ops f ++ [OpRead 4])).
    unfold struct_unpack. simpl String.eqb. cbv iota.
    destruct (Nat.eqb_spec (String.length (PyStr.take 4 (remaining f))) 4)
      as [Hlen|]; [|discriminate].
    specialize (Hb 4%nat). rewrite Hlen in *.
    set (u := le_unsigned (PyStr.take 4 (remaining f))) in *.
    intros [= <- <-]. cbn [data pos].
    split; [reflexivity|]. split; [reflexivity|]. right. left. split; [reflexivity|].
    change (256 ^ Z.of_nat 4) with 4294967296 in Hb.
    change (2 ^ 32) with 4294967296. change (2 ^ 31) with 2147483648.
    cbv zeta. destruct (Z.ltb_spec u 2147483648); lia.
  - apply String.eqb_eq in E3. subst hint.
    change (BinaryStlModel__num "short" f)
      with (struct_unpack (Some "<H") (PyStr.take 2 (remaining f)),
            mkFile (data f) (pos f + String.length (PyStr.take 2 (remaining f)))
                   (ops f ++ [OpRead 2])).
    unfold struct_unpack. simpl String.eqb. cbv iota.
    destruct (Nat.eqb_spec (String.length (PyStr.take 2 (remaining f))) 2)
      as [Hlen|]; [|discriminate].
    specialize (Hb 2%nat). rewrite Hlen in *.
    set (u := le_unsigned (PyStr.take 2 (remaining f))) in *.
    intros [= <- <-]. cbn [data pos].
    split; [reflexivity|]. split; [reflexivity|]. right. right. split; [reflexivity|].
    change (2 ^ 16) with (256 ^ Z.of_nat 2). exact Hb.
  - unfold BinaryStlModel__num. rewrite E1, E2, E3. cbn. discriminate.
Qed.

Lemma X1_witness :
  let f := mkFile one_triangle 80 [OpSeek 80] in
  let f' := mkFile one_triangle 84 [OpSeek 80; OpRead 4] in
  data f' = data f /\
  pos f' = (pos f + field_width "uint")%nat /\
  (("uint" = "uint" /\ 0 <= 1 < 2 ^ 32) \/
   ("uint" = "real" /\ - 2 ^ 31 <= 1 < 2 ^ 31) \/
   ("uint" = "short" /\ 0 <= 1 < 2 ^ 16)).
Proof.
  apply (X1_num_range_and_width "uint" (mkFile one_triangle 80 [OpSeek 80]) 1).
  vm_compute. reflexivity.
Defined.

(** X2: on a stream that holds all the triangles it declares (and whose
    count [range] can hold), [BinaryStlModel.load] returns exactly three
    vertices of three numbers per triangle, read from the fixed offsets of
    the 50-byte records in file order, and leaves the position just after
    the last record; the only operations are the seek to 80, the read of
    the count and thirteen reads per triangle. *)
Theorem X2_load_decodes_every_declared_triangle mem_limit f k :
  declared_triangle_count (data f) = Ok (Z.of_nat k) ->
  (k <= N.to_nat mem_limit)%nat ->
  (84 + 50 * k <= String.length (data f))%nat ->
  BinaryStlModel_load mem_limit f =
    (Ok (triangles_from (data f) 84 k),
     mkFile (data f) (84 + 50 * k)
            (ops f ++ [OpSeek 80; OpRead 4] ++ triangles_ops k)) /\
  length (triangles_from (data f) 84 k) = (3 * k)%nat /\
  Forall (fun v => length v = 3%nat) (triangles_from (data f) 84 k).
Proof.
  intros Hcount Hmem Hlen. split.
  - rewrite (BinaryStlModel_load_complete mem_limit f (Z.of_nat k));
      rewrite ?Nat2Z.id; try assumption; [reflexivity | lia].
  - apply length_triangles_from.
Qed.

Lemma X2_witness :
  let f := open_file one_triangle in
  BinaryStlModel_load 16 f =
    (Ok (triangles_from (data f) 84 1),
     mkFile (data f) (84 + 50 * 1)
            (ops f ++ [OpSeek 80; OpRead 4] ++ triangles_ops 1)) /\
  length (triangles_from (data f) 84 1) = (3 * 1)%nat /\
  Forall (fun v => length v = 3%nat) (triangles_from (data f) 84 1).
Proof.
  apply (X2_load_decodes_every_declared_triangle 16 (open_file one_triangle) 1).
  - vm_compute. reflexivity.
  - vm_compute. lia.
  - vm_compute. lia.
Defined.

(** X3: [BinaryStlModel] ignores the 80-byte header: two streams that
    agree from byte 80 on give the same result, model or exception. *)
Theorem X3_header_is_ignored mem_limit f g :
  PyStr.drop 80 (data f) = PyStr.drop 80 (data g) ->
  fst (BinaryStlModel mem_limit f) = fst (BinaryStlModel mem_limit g).
Proof. apply BinaryStlModel_from_offset_80. Qed.

Lemma X3_witness :
  fst (BinaryStlModel 16 (open_file one_triangle)) =
  fst (BinaryStlModel 16
         (open_file ("solid exported by a modelling tool" ++ zeros 46
                     ++ PyStr.drop 80 one_triangle))).
Proof.
  apply (X3_header_is_ignored 16 (open_file one_triangle)).
  vm_compute. reflexivity.
Defined.

(** X4: bytes that follow the last declared triangle are ignored: a
    complete stream and the same stream with anything appended give the
    same result. *)
Theorem X4_trailing_bytes_are_ignored mem_limit f g k extra :
  declared_triangle_count (data f) = Ok (Z.of_nat k) ->
  (1 <= k <= N.to_nat mem_limit)%nat ->
  (84 + 50 * k <= String.length (data f))%nat ->
  data g = (data f ++ extra)%string ->
  fst (BinaryStlModel mem_limit g) = fst (BinaryStlModel mem_limit f).
Proof.
  intros Hcount Hk Hlen Hg.
  destruct (BinaryStlModel_complete mem_limit f k Hcount Hk Hlen) as [-> _].
  destruct (BinaryStlModel_complete mem_limit g k) as [-> _]; try assumption.
  - rewrite Hg. now apply declared_triangle_count_app.
  - rewrite Hg, length_string_app. lia.
  - cbn [fst]. rewrite Hg. now rewrite triangles_from_app by lia.
Qed.

Lemma X4_witness :
  fst (BinaryStlModel 16 (open_file (one_triangle ++ "endsolid")))
  = fst (BinaryStlModel 16 (open_file one_triangle)).
Proof.
  apply (X4_trailing_bytes_are_ignored
           16 (open_file one_triangle) (open_file (one_triangle ++ "endsolid"))
           1 "endsolid").
  - vm_compute. reflexivity.
  - vm_compute. lia.
  - vm_compute. lia.
  - reflexivity.
Defined.

(** X5: [BinaryStlModel(fileob)] returns a model exactly when the stream
    declares a triangle count between 1 and what [range] can hold and is
    long enough for that many 50-byte records after the 84 bytes of header
    and count. *)
Theorem X5_binary_loader_succeeds_iff_complete mem_limit f :
  (exists m, fst (BinaryStlModel mem_limit f) = Ok m) <->
  (exists k,
      declared_triangle_count (data f) = Ok (Z.of_nat k) /\
      (1 <= k <= N.to_nat mem_limit)%nat /\
      (84 + 50 * k <= String.length (data f))%nat).
Proof.
  split.
  - intros [m Hm]. exact (BinaryStlModel_ok_inv _ _ _ Hm).
  - intros (k & Hcount & Hk & Hlen).
    destruct (BinaryStlModel_complete mem_limit f k Hcount Hk Hlen) as [-> [m Hm]].
    exists m. exact Hm.
Qed.

(** X6: the outcome of [ThreeDee.__init__] is decided by what [load]
    returned: the exception of [load]; the empty-model error for no
    vertex; [IndexError] when some vertex has fewer than three components;
    otherwise the model whose three axes are folded independently
    ([summarize]).  The file object is left as [load] left it. *)
Theorem X6_constructor_outcome {A} `{PyNumber A} (load : M (list (list A))) f :
  ThreeDee_init load f =
  (match fst (load f) with
   | Raise e => Raise e
   | Ok [] => Raise (ThreeDeeParseError "Empyt model.")
   | Ok vs =>
       if forallb (fun v => (3 <=? length v)%nat) vs
       then summarize vs else Raise IndexError
   end, snd (load f)).
Proof. apply ThreeDee_init_summarize. Qed.

(** X7: a model that was built keeps the vertices [load] returned, in
    order; it has three averages; and on every axis its minimum and its
    maximum are coordinates that occur among the vertices on that axis,
    with the axis extent [abs(min - max)]. *)
Theorem X7_model_bounds_are_vertex_coordinates
    {A} `{PyNumber A} (load : M (list (list A))) f m f' :
  ThreeDee_init load f = (Ok m, f') ->
  load f = (Ok (verts m), f') /\
  verts m <> [] /\
  length (average m) = 3%nat /\
  forall i, (i < 3)%nat ->
    exists a b,
      min m !! i = Some (Some a) /\ max m !! i = Some (Some b) /\
      In a (axis i (verts m)) /\ In b (axis i (verts m)) /\
      [width m; depth m; height m] !! i = Some (py_abs (py_sub a b)).
Proof.
  rewrite ThreeDee_init_summarize.
  destruct (load f) as [[[|v vs]|e] g]; cbn [fst snd]; try discriminate.
  destruct (forallb _ (v :: vs)); [|discriminate].
  intros [= Hsum <-].
  destruct (summarize_invariants (v :: vs) m ltac:(discriminate) Hsum)
    as (Hv & Havg & Haxes).
  rewrite Hv. repeat split; try assumption; discriminate.
Qed.

Lemma X7_witness :
  let m := mkThreeDee [[1; 2; 3]; [4; 5; 6]]%float [2.5; 3.5; 4.5]%float
                      [Some 1; Some 2; Some 3]%float
                      [Some 4; Some 5; Some 6]%float 3%float 3%float 3%float in
  let f' := mkFile ("v 1 2 3" ++ LF ++ "v 4 5 6" ++ LF) 16 [OpNext; OpNext; OpNext] in
  ObjModel_load (open_file ("v 1 2 3" ++ LF ++ "v 4 5 6" ++ LF)) = (Ok (verts m), f') /\
  verts m <> [] /\
  length (average m) = 3%nat /\
  forall i, (i < 3)%nat ->
    exists a b,
      min m !! i = Some (Some a) /\ max m !! i = Some (Some b) /\
      In a (axis i (verts m)) /\ In b (axis i (verts m)) /\
      [width m; depth m; height m] !! i = Some (py_abs (py_sub a b)).
Proof.
  apply (X7_model_bounds_are_vertex_coordinates
           ObjModel_load (open_file ("v 1 2 3" ++ LF ++ "v 4 5 6" ++ LF))).
  vm_compute. reflexivity.
Defined.

(** X8: in every model [BinaryStlModel] builds, zero coordinates
    included, each axis has min[i] <= max[i], and width, depth and height
    are max[i] - min[i], so they are never negative. *)
Theorem X8_binary_model_bounds_are_ordered mem_limit f m :
  fst (BinaryStlModel mem_limit f) = Ok m ->
  forall i, (i < 3)%nat ->
    exists lo hi,
      min m !! i = Some (Some lo) /\ max m !! i = Some (Some hi) /\
      lo <= hi /\
      [width m; depth m; height m] !! i = Some (hi - lo) /\
      0 <= hi - lo.
Proof.
  intros Hm i Hi.
  destruct (BinaryStlModel_ok_summarize _ _ _ Hm) as [Hne Hsum].
  destruct (summarize_int _ _ Hne Hsum) as [_ Haxes].
  destruct (Haxes i Hi) as (lo & hi & Hlo & Hhi & Hle & _ & Hext).
  exists lo, hi. repeat split; try assumption; lia.
Qed.

Lemma X8_witness :
  let m := mkThreeDee [[0; 0; 0]; [1; 1; 1]; [2; 2; 2]] [1; 1; 1]
                      [Some 1; Some 1; Some 1] [Some 2; Some 2; Some 2] 1 1 1 in
  exists lo hi,
    min m !! 0%nat = Some (Some lo) /\ max m !! 0%nat = Some (Some hi) /\
    lo <= hi /\
    [width m; depth m; height m] !! 0%nat = Some (hi - lo) /\
    0 <= hi - lo.
Proof.
  apply (X8_binary_model_bounds_are_ordered 16 (open_file one_triangle)).
  - vm_compute. reflexivity.
  - lia.
Defined.

(** X9: in every model [BinaryStlModel] builds, average[i] is the sum of
    coordinate i over all vertices divided by the number of vertices,
    rounded down; a coordinate of 0 does not disturb it. *)
Theorem X9_binary_model_average_is_floored_mean mem_limit f m :
  fst (BinaryStlModel mem_limit f) = Ok m ->
  forall i, (i < 3)%nat ->
    average m !! i =
    Some (total (axis i (verts m)) / Z.of_nat (length (verts m))).
Proof.
  intros Hm i Hi.
  destruct (BinaryStlModel_ok_summarize _ _ _ Hm) as [Hne Hsum].
  destruct (summarize_int _ _ Hne Hsum) as [_ Haxes].
  destruct (Haxes i Hi) as (lo & hi & _ & _ & _ & Havg & _).
  exact Havg.
Qed.

Lemma X9_witness :
  let m := mkThreeDee [[0; 0; 0]; [1; 1; 1]; [2; 2; 2]] [1; 1; 1]
                      [Some 1; Some 1; Some 1] [Some 2; Some 2; Some 2] 1 1 1 in
  average m !! 0%nat =
  Some (total (axis 0 (verts m)) / Z.of_nat (length (verts m))).
Proof.
  apply (X9_binary_model_average_is_floored_mean 16 (open_file one_triangle)).
  - vm_compute. reflexivity.
  - lia.
Defined.

(** X10: [ObjModel(fileob)] returns a model exactly when [load] returns a
    list that is not empty and in which every vertex has three
    components. *)
Theorem X10_obj_loader_succeeds_iff f :
  (exists m, fst (ObjModel f) = Ok m) <->
  (exists vs,
      fst (ObjModel_load f) = Ok vs /\ vs <> [] /\
      Forall (fun v => length v = 3%nat) vs).
Proof.
  unfold ObjModel. rewrite ThreeDee_init_summarize. cbn [fst]. split.
  - intros [m Hm].
    destruct (fst (ObjModel_load f)) as [[|v vs]|e] eqn:Hload; try discriminate.
    exists (v :: vs). split; [reflexivity|]. split; [discriminate|].
    destruct (forallb _ (v :: vs)) eqn:Hall; [|discriminate].
    pose proof (ObjModel_load_at_most_three f _ Hload) as Hmost.
    rewrite List.Forall_forall in *. intros u Hu.
    rewrite forallb_forall in Hall. specialize (Hall u Hu). specialize (Hmost u Hu).
    apply Nat.leb_le in Hall. lia.
  - intros (vs & -> & Hne & Hall).
    destruct vs as [|v vs]; [congruence|].
    replace (forallb _ (v :: vs)) with true.
    + apply summarize_ok; [apply py_div_len_float_ok | discriminate].
    + symmetry. apply forallb_forall. intros u Hu.
      rewrite List.Forall_forall in Hall. now rewrite (Hall u Hu).
Qed.

(** X11: [ObjModel.__vector] either raises [ValueError] (some token does
    not convert) or returns as many numbers as the line has tokens after
    the marker, three at most. *)
Theorem X11_vector_has_at_most_expected_components line n :
  match ObjModel__vector line n with
  | Ok v => length v = Nat.min n (length (tokens line))
  | Raise e => e = ValueError
  end.
Proof.
  destruct (ObjModel__vector line n) as [v|e] eqn:Hv.
  - now apply ObjModel__vector_length.
  - symmetry. exact (ObjModel__vector_raises line n e Hv).
Qed.

(** X12: a vertex line with two consecutive spaces in it (after the line
    is stripped) is rejected with [ValueError]: [split(" ")] yields an
    empty token and [float("")] fails. *)
Theorem X12_consecutive_spaces_raise_ValueError line n a b :
  PyStr.strip line = (a ++ "  " ++ b)%string ->
  ObjModel__vector line n = Raise ValueError.
Proof.
  intros Hline.
  assert (Hin : In EmptyString (tokens line)).
  { unfold tokens. rewrite Hline.
    change (a ++ "  " ++ b)%string with (a ++ String " " (String " " b))%string.
    rewrite split_app.
    change (String " " b) with (EmptyString ++ String " " b)%string.
    rewrite split_app. cbn [PyStr.split app].
    pose proof (split_nonempty " " a) as Hne.
    destruct (PyStr.split " " a) as [|t ts]; [congruence|].
    cbn [app tail]. apply in_or_app. right. now left. }
  assert (Hfail : is_ok (py_map PyFloat.float (tokens line)) = false).
  { apply (py_map_fails _ _ EmptyString Hin). reflexivity. }
  destruct (ObjModel__vector line n) as [v|e] eqn:Hv.
  - unfold ObjModel__vector in Hv. fold (tokens line) in Hv.
    destruct (py_map PyFloat.float (tokens line)); discriminate.
  - f_equal. symmetry. exact (ObjModel__vector_raises line n e Hv).
Qed.

Lemma X12_witness : ObjModel__vector ("v  1 2 3" ++ LF) 3 = Raise ValueError.
Proof.
  apply (X12_consecutive_spaces_raise_ValueError ("v  1 2 3" ++ LF) 3 "v" "1 2 3").
  vm_compute. reflexivity.
Defined.

(** X13: white space at the end of a vertex line (a newline, a carriage
    return before it, blanks, or no newline at all) does not change the
    vertex the line gives. *)
Theorem X13_trailing_white_space_is_ignored line w n :
  all_space w = true ->
  ObjModel__vector (line ++ w) n = ObjModel__vector line n.
Proof.
  intros Hw. unfold ObjModel__vector. now rewrite strip_app_space.
Qed.

Lemma X13_witness :
  ObjModel__vector ("v 1 2 3" ++ String "013" LF) 3 = ObjModel__vector "v 1 2 3" 3.
Proof.
  apply (X13_trailing_white_space_is_ignored "v 1 2 3" (String "013" LF) 3).
  reflexivity.
Defined.

(** X14: [ObjModel] touches the file by line iteration only (it never
    seeks and never reads by size) and leaves the data alone; when it
    returns a model the stream has been read to its end. *)
Theorem X14_obj_loader_only_iterates f :
  data (snd (ObjModel f)) = data f /\
  only_iterates (ops f) (ops (snd (ObjModel f))) /\
  (forall m, fst (ObjModel f) = Ok m -> remaining (snd (ObjModel f)) = EmptyString).
Proof.
  destruct (ObjModel_iterates f) as [Hd Ho].
  split; [exact Hd|]. split; [exact Ho|].
  intros m Hm. destruct (ObjModel f) as [r f'] eqn:Hobj. cbn [fst snd] in *.
  subst r. exact (ObjModel_ok_consumes _ _ _ Hobj).
Qed.

(** X15: with the hint "obj", [auto_detect] is [ObjModel] and nothing
    more: it returns the model [ObjModel] built, turns [ObjModel]'s own
    exception into the final "could not parse" error and lets any other
    exception through.  It never returns a binary model, and the file is
    touched by line iteration only: no seek, no sized read. *)
Theorem X15_obj_hint_never_reaches_the_binary_loader mem_limit f :
  fst (auto_detect mem_limit (Some "obj") f) =
    match fst (ObjModel f) with
    | Ok m => Ok (an_ObjModel m)
    | Raise e => Raise (if is_ThreeDeeParseError e then unrecognized else e)
    end /\
  (forall m, fst (auto_detect mem_limit (Some "obj") f) <> Ok (a_BinaryStlModel m)) /\
  data (snd (auto_detect mem_limit (Some "obj") f)) = data f /\
  only_iterates (ops f) (ops (snd (auto_detect mem_limit (Some "obj") f))).
Proof.
  rewrite auto_detect_obj. cbn [fst snd].
  destruct (ObjModel_iterates f) as [Hd Ho].
  split; [reflexivity|]. split; [|now split].
  intros m. destruct (fst (ObjModel f)); discriminate.
Qed.

(** X16: giving no hint gives the same result as the hint "stl": the
    extra first attempt either succeeds as the "stl" attempt would, or
    fails and leaves the rest unchanged. *)
Theorem X16_no_hint_is_the_stl_hint mem_limit hint f :
  hint_not hint = true ->
  fst (auto_detect mem_limit hint f) = fst (auto_detect mem_limit (Some "stl") f).
Proof.
  intros Hhint.
  change (auto_detect mem_limit (Some "stl") f)
    with (auto_detect_stl mem_limit (Some "stl") f).
  destruct (ObjModel f) as [[m|e] f1] eqn:Hobj.
  - unfold auto_detect, auto_detect_stl. rewrite Hhint, orb_true_r.
    cbn [hint_eq hint_not String.eqb Ascii.eqb Bool.eqb orb].
    unfold try_except, fmap, bind. rewrite Hobj. reflexivity.
  - destruct e as [msg| | | | | | |];
      try (unfold auto_detect, auto_detect_stl; rewrite Hhint, orb_true_r;
           cbn [hint_eq hint_not String.eqb Ascii.eqb Bool.eqb orb];
           unfold try_except, fmap, bind; rewrite Hobj; reflexivity).
    rewrite (auto_detect_no_hint_after_failure _ _ _ _ _ Hobj Hhint).
    rewrite (auto_detect_stl_after_failure mem_limit hint _ _ _ Hobj)
      by (rewrite Hhint; apply orb_true_r).
    now rewrite (auto_detect_stl_after_failure mem_limit (Some "stl") _ _ _ Hobj).
Qed.

Lemma X16_witness :
  fst (auto_detect 16 None (open_file one_triangle))
  = fst (auto_detect 16 (Some "stl") (open_file one_triangle)).
Proof.
  apply (X16_no_hint_is_the_stl_hint 16 None (open_file one_triangle)).
  reflexivity.
Defined.

(** X17: text takes precedence.  When [ObjModel] can build a model from
    the stream, [auto_detect] returns that model for the hints "obj",
    "stl" and none, and the binary loader is not run: the file object is
    as [ObjModel] left it. *)
Theorem X17_text_model_takes_precedence mem_limit hint f m f' :
  ObjModel f = (Ok m, f') ->
  hint = Some "obj" \/ hint = Some "stl" \/ hint_not hint = true ->
  auto_detect mem_limit hint f = (Ok (an_ObjModel m), f').
Proof.
  intros Hobj [-> | [-> | Hhint]].
  - rewrite auto_detect_obj, Hobj. reflexivity.
  - unfold auto_detect, auto_detect_stl.
    cbn [hint_eq hint_not String.eqb Ascii.eqb Bool.eqb orb].
    unfold try_except, fmap, bind. now rewrite Hobj.
  - unfold auto_detect. rewrite Hhint, orb_true_r.
    unfold try_except, fmap, bind. now rewrite Hobj.
Qed.

Lemma X17_witness :
  auto_detect 16 (Some "stl") (open_file ("v 1 2 3" ++ LF ++ "v 4 5 6" ++ LF)) =
  (Ok (an_ObjModel
         (mkThreeDee [[1; 2; 3]; [4; 5; 6]]%float [2.5; 3.5; 4.5]%float
                     [Some 1; Some 2; Some 3]%float
                     [Some 4; Some 5; Some 6]%float 3%float 3%float 3%float)),
   mkFile ("v 1 2 3" ++ LF ++ "v 4 5 6" ++ LF) 16 [OpNext; OpNext; OpNext]).
Proof.
  apply (X17_text_model_takes_precedence
           16 (Some "stl") (open_file ("v 1 2 3" ++ LF ++ "v 4 5 6" ++ LF))).
  - vm_compute. reflexivity.
  - right. left. reflexivity.
Defined.

(** X18: a complete binary STL stream in which no line starts with [v]
    is detected with the hint "stl" and with no hint: [auto_detect]
    returns a binary model whose vertices are the three vertices of every
    declared triangle, in file order. *)
Theorem X18_binary_stl_is_detected mem_limit hint f k :
  hint = Some "stl" \/ hint_not hint = true ->
  List.filter is_vertex_line (PyStr.readlines (remaining f)) = [] ->
  declared_triangle_count (data f) = Ok (Z.of_nat k) ->
  (1 <= k <= N.to_nat mem_limit)%nat ->
  (84 + 50 * k <= String.length (data f))%nat ->
  exists m,
    fst (auto_detect mem_limit hint f) = Ok (a_BinaryStlModel m) /\
    verts m = triangles_from (data f) 84 k /\
    length (verts m) = (3 * k)%nat.
Proof.
  intros Hhint Hnone Hcount Hk Hlen.
  destruct (ObjModel_no_vertex_lines f Hnone) as [f1 Hobj].
  destruct (BinaryStlModel_complete mem_limit f k Hcount Hk Hlen) as [Hbin [m Hm]].
  assert (Hstl : fst (auto_detect mem_limit (Some "stl") f) = Ok (a_BinaryStlModel m)).
  { change (auto_detect mem_limit (Some "stl") f)
      with (auto_detect_stl mem_limit (Some "stl") f).
    rewrite (auto_detect_stl_after_failure mem_limit (Some "stl") _ _ _ Hobj)
      by reflexivity.
    rewrite Hbin. cbn [fst]. now rewrite Hm. }
  assert (Hne : triangles_from (data f) 84 k <> []).
  { destruct (length_triangles_from (data f) 84 k) as [Hn _].
    intros Hnil. rewrite Hnil in Hn. cbn in Hn. lia. }
  destruct (summarize_int _ _ Hne Hm) as [Hv _].
  exists m. split; [|split].
  - destruct Hhint as [-> | Hhint]; [exact Hstl|].
    rewrite (auto_detect_no_hint_after_failure _ _ _ _ _ Hobj Hhint).
    rewrite (auto_detect_stl_after_failure mem_limit hint _ _ _ Hobj)
      by (rewrite Hhint; apply orb_true_r).
    rewrite Hbin. cbn [fst]. now rewrite Hm.
  - exact Hv.
  - rewrite Hv. apply length_triangles_from.
Qed.

Lemma X18_witness :
  exists m,
    fst (auto_detect 16 None (open_file one_triangle)) = Ok (a_BinaryStlModel m) /\
    verts m = triangles_from (data (open_file one_triangle)) 84 1 /\
    length (verts m) = (3 * 1)%nat.
Proof.
  apply (X18_binary_stl_is_detected 16 None (open_file one_triangle) 1).
  - right. reflexivity.
  - vm_compute. reflexivity.
  - vm_compute. reflexivity.
  - vm_compute. lia.
  - vm_compute. lia.
Defined.

(** X19: a declared triangle count that [range] cannot hold does not
    escape as [MemoryError]: for a stream without vertex lines, with the
    hint "stl" or none, [auto_detect] ends in its own "could not parse"
    error. *)
Theorem X19_oversized_count_is_unrecognized mem_limit hint f n :
  hint = Some "stl" \/ hint_not hint = true ->
  List.filter is_vertex_line (PyStr.readlines (remaining f)) = [] ->
  declared_triangle_count (data f) = Ok n ->
  Z.of_N mem_limit < n ->
  fst (auto_detect mem_limit hint f) =
  Raise (ThreeDeeParseError "Could not successfully parse the model :(").
Proof.
  intros Hhint Hnone Hcount Hbig.
  destruct (ObjModel_no_vertex_lines f Hnone) as [f1 Hobj].
  pose proof (BinaryStlModel_oversized mem_limit f n Hcount Hbig) as Hbin.
  destruct Hhint as [-> | Hhint].
  - change (auto_detect mem_limit (Some "stl") f)
      with (auto_detect_stl mem_limit (Some "stl") f).
    rewrite (auto_detect_stl_after_failure mem_limit (Some "stl") _ _ _ Hobj)
      by reflexivity.
    now rewrite Hbin.
  - rewrite (auto_detect_no_hint_after_failure _ _ _ _ _ Hobj Hhint).
    rewrite (auto_detect_stl_after_failure mem_limit hint _ _ _ Hobj)
      by (rewrite Hhint; apply orb_true_r).
    now rewrite Hbin.
Qed.

Lemma X19_witness :
  fst (auto_detect 16 (Some "stl")
         (open_file (zeros 80 ++ bytes [255; 255; 255; 255]))) =
  Raise (ThreeDeeParseError "Could not successfully parse the model :(").
Proof.
  apply (X19_oversized_count_is_unrecognized
           16 (Some "stl") (open_file (zeros 80 ++ bytes [255; 255; 255; 255]))
           4294967295).
  - left. reflexivity.
  - vm_compute. reflexivity.
  - vm_compute. reflexivity.
  - vm_compute. reflexivity.
Defined.

(** X20: the exceptions a loader can raise.  [ObjModel] raises the
    empty-model error, [ValueError] or [IndexError]; [BinaryStlModel]
    raises the empty-model error, [struct.error] or [MemoryError].  In
    particular the division by [len(self.verts)], the subtraction of the
    bounds and the assertion of [__num] never fail, and a binary vertex
    always has its three components. *)
Theorem X20_loader_exceptions mem_limit f :
  (forall e, fst (ObjModel f) = Raise e ->
     e = ThreeDeeParseError "Empyt model." \/ e = ValueError \/ e = IndexError) /\
  (forall e, fst (BinaryStlModel mem_limit f) = Raise e ->
     e = ThreeDeeParseError "Empyt model." \/ e = StructError \/ e = MemoryError).
Proof.
  split; intros e He.
  - now apply (ObjModel_raises f).
  - now apply (BinaryStlModel_raises mem_limit f).
Qed.

(** X21: whatever the hint and the stream, an exception that leaves
    [auto_detect] is its final "could not parse" error, [ValueError],
    [IndexError] or [struct.error]; the empty-model error of a loader and
    the [MemoryError] of [range] never leave it. *)
Theorem X21_auto_detect_exceptions mem_limit hint f e :
  fst (auto_detect mem_limit hint f) = Raise e ->
  e = ThreeDeeParseError "Could not successfully parse the model :(" \/
  e = ValueError \/ e = IndexError \/ e = StructError.
Proof.
  set (P := fun e => e = ThreeDeeParseError "Could not successfully parse the model :(" \/
                     e = ValueError \/ e = IndexError \/ e = StructError).
  assert (Hbin : forall g,
             fst (try_except (fmap a_BinaryStlModel (BinaryStlModel mem_limit))
                    (fun e => is_ThreeDeeParseError e || is_MemoryError e)
                    (raise unrecognized) g) = Raise e -> P e).
  { intros g. unfold try_except, fmap, bind, ret, raise.
    destruct (BinaryStlModel mem_limit g) as [[m|e'] g'] eqn:Hb; cbn [fst]; [discriminate|].
    assert (Hb' : fst (BinaryStlModel mem_limit g) = Raise e') by now rewrite Hb.
    destruct (BinaryStlModel_raises _ _ _ Hb') as [-> | [-> | ->]];
      cbn; intros [= <-]; unfold P; auto. }
  assert (Hobj : forall (k : M model) g,
             (forall g', fst (k g') = Raise e -> P e) ->
             fst (try_except (fmap an_ObjModel ObjModel) is_ThreeDeeParseError k g)
             = Raise e -> P e).
  { intros k g Hk. unfold try_except, fmap, bind, ret.
    destruct (ObjModel g) as [[m|e'] g'] eqn:Ho; cbn [fst]; [discriminate|].
    assert (Ho' : fst (ObjModel g) = Raise e') by now rewrite Ho.
    destruct (ObjModel_raises _ _ Ho') as [-> | [-> | ->]]; cbn.
    - apply Hk.
    - intros [= <-]. unfold P. auto.
    - intros [= <-]. unfold P. auto. }
  assert (Hfinal : forall g, fst (@raise model unrecognized g) = Raise e -> P e).
  { intros g [= <-]. unfold P. now left. }
  assert (Hstl : forall g, fst (auto_detect_stl mem_limit hint g) = Raise e -> P e).
  { intros g. unfold auto_detect_stl.
    destruct (hint_eq hint "stl" || hint_not hint); [|apply Hfinal].
    apply Hobj. exact Hbin. }
  unfold auto_detect.
  destruct (hint_eq hint "obj" || hint_not hint); [|apply Hstl].
  apply Hobj. exact Hstl.
Qed.

Lemma X21_witness :
  StructError = ThreeDeeParseError "Could not successfully parse the model :(" \/
  StructError = ValueError \/ StructError = IndexError \/ StructError = StructError.
Proof.
  apply (X21_auto_detect_exceptions 16 (Some "stl") (open_file ("solid cube" ++ LF))).
  vm_compute. reflexivity.
Defined.

(** X22: [ObjModel] cannot be run twice on one file object: once it has
    returned a model the stream is at its end, and a second [ObjModel] on
    the file object it left raises the empty-model error. *)
Theorem X22_obj_loader_needs_a_rewind f m f' :
  ObjModel f = (Ok m, f') ->
  fst (ObjModel f') = Raise (ThreeDeeParseError "Empyt model.").
Proof.
  intros Hobj. apply ObjModel_nothing_left.
  exact (ObjModel_ok_consumes _ _ _ Hobj).
Qed.

Lemma X22_witness :
  fst (ObjModel (mkFile ("v 1 2 3" ++ LF ++ "v 4 5 6" ++ LF) 16 [OpNext; OpNext; OpNext]))
  = Raise (ThreeDeeParseError "Empyt model.").
Proof.
  apply (X22_obj_loader_needs_a_rewind
           (open_file ("v 1 2 3" ++ LF ++ "v 4 5 6" ++ LF))
           (mkThreeDee [[1; 2; 3]; [4; 5; 6]]%float [2.5; 3.5; 4.5]%float
                       [Some 1; Some 2; Some 3]%float
                       [Some 4; Some 5; Some 6]%float 3%float 3%float 3%float)).
  vm_compute. reflexivity.
Defined.

(** X23: [BinaryStlModel] can be run again: it leaves the data alone and
    starts with an absolute seek, so on the file object it left it gives
    the result it gave, model or exception. *)
Theorem X23_binary_loader_can_be_rerun mem_limit f :
  data (snd (BinaryStlModel mem_limit f)) = data f /\
  fst (BinaryStlModel mem_limit (snd (BinaryStlModel mem_limit f)))
  = fst (BinaryStlModel mem_limit f).
Proof.
  pose proof (keeps_data_BinaryStlModel mem_limit f) as Hd.
  split; [exact Hd|]. now apply BinaryStlModel_position_independent.
Qed.

(** X24: [ObjModel] parses from the current position on: what it returns
    depends on nothing but the bytes that are still ahead. *)
Theorem X24_obj_loader_reads_from_the_position f g :
  remaining f = remaining g -> fst (ObjModel f) = fst (ObjModel g).
Proof. apply ObjModel_from_position. Qed.

Lemma X24_witness :
  fst (ObjModel (mkFile ("o cube" ++ LF ++ "v 1 2 3" ++ LF) 7 [OpNext]))
  = fst (ObjModel (open_file ("v 1 2 3" ++ LF))).
Proof.
  apply (X24_obj_loader_reads_from_the_position
           (mkFile ("o cube" ++ LF ++ "v 1 2 3" ++ LF) 7 [OpNext])).
  vm_compute. reflexivity.
Defined.

(** X25: when no coordinate of a binary model is 0, its statistics are
    the ones intended: on every axis min[i] is the least and max[i] the
    greatest coordinate, and average[i], the floored mean, lies between
    them. *)
Theorem X25_binary_model_without_zero_is_exact mem_limit f m :
  fst (BinaryStlModel mem_limit f) = Ok m ->
  (forall i, (i < 3)%nat -> Forall (fun x => x <> 0) (axis i (verts m))) ->
  forall i, (i < 3)%nat ->
    exists x xs,
      axis i (verts m) = x :: xs /\
      min m !! i = Some (Some (minimum x xs)) /\
      max m !! i = Some (Some (maximum x xs)) /\
      average m !! i = Some (total (x :: xs) / Z.of_nat (length (verts m))) /\
      minimum x xs <= total (x :: xs) / Z.of_nat (length (verts m)) <= maximum x xs.
Proof.
  intros Hm Hnz.
  destruct (BinaryStlModel_ok_summarize _ _ _ Hm) as [Hne Hsum].
  destruct (BinaryStlModel_ok_inv _ _ _ Hm) as (k & Hcount & Hk & Hlen).
  destruct (BinaryStlModel_complete mem_limit f k Hcount Hk Hlen) as [Heq _].
  rewrite Heq in Hm. cbn [fst] in Hm.
  assert (Hv : verts m = triangles_from (data f) 84 k).
  { destruct (length_triangles_from (data f) 84 k) as [Hn _].
    assert (Hne' : triangles_from (data f) 84 k <> [])
      by (intros Hnil; rewrite Hnil in Hn; cbn in Hn; lia).
    now destruct (summarize_int _ _ Hne' Hm). }
  assert (Hall : Forall (fun v : list Z => (3 <= length v)%nat) (verts m)).
  { rewrite Hv. destruct (length_triangles_from (data f) 84 k) as [_ Hall].
    eapply List.Forall_impl; [|exact Hall]. cbn. intros v ->. lia. }
  destruct (statistics_int_nonzero (verts m) Hne Hall Hnz) as (m' & Hstat & _ & Haxes).
  pose proof (statistics_summarize (A := Z) (verts m) Hall) as Hss.
  cbn [py_zero PyNumber_int] in Hss. rewrite Hss in Hstat.
  rewrite Hsum in Hstat. injection Hstat as <-.
  exact Haxes.
Qed.

Lemma X25_witness :
  let m := mkThreeDee [[1; 1; 1]; [2; 2; 2]; [3; 3; 3]] [2; 2; 2]
                      [Some 1; Some 1; Some 1] [Some 3; Some 3; Some 3] 2 2 2 in
  exists x xs,
    axis 0 (verts m) = x :: xs /\
    min m !! 0%nat = Some (Some (minimum x xs)) /\
    max m !! 0%nat = Some (Some (maximum x xs)) /\
    average m !! 0%nat = Some (total (x :: xs) / Z.of_nat (length (verts m))) /\
    minimum x xs <= total (x :: xs) / Z.of_nat (length (verts m)) <= maximum x xs.
Proof.
  apply (X25_binary_model_without_zero_is_exact 16 (open_file nonzero_triangle)).
  - vm_compute. reflexivity.
  - intros i Hi. destruct i as [|[|[|i]]]; [| | | lia];
      vm_compute; repeat constructor; discriminate.
  - lia.
Defined.

(** * The record of operations of auto_detect *)

Lemma only_reads_refl l : only_reads l l.
Proof. exists []. now rewrite app_nil_r. Qed.

Lemma only_reads_trans a b c : only_reads a b -> only_reads b c -> only_reads a c.
Proof.
  intros (t & -> & Ht) (u & -> & Hu). exists (t ++ u)%list.
  rewrite <- app_assoc. split; [reflexivity|].
  rewrite forallb_app, Ht, Hu. reflexivity.
Qed.

Lemma appends_reads_bind {A B} (m : M A) (k : A -> M B) :
  appends_reads m -> (forall a, appends_reads (k a)) -> appends_reads (bind m k).
Proof.
  intros Hm Hk f. unfold bind. specialize (Hm f).
  destruct (m f) as [[a|e] f1]; cbn [snd] in *; [|assumption].
  exact (only_reads_trans _ _ _ Hm (Hk a f1)).
Qed.

Lemma appends_reads_pure {A} (r : result A) : appends_reads (lift r).
Proof. intros f. apply only_reads_refl. Qed.

Lemma appends_reads_read size : appends_reads (read size).
Proof. intros f. exists [OpRead size]. now split. Qed.

Lemma appends_reads_for_each_io {T S} (xs : list T) (body : T -> S -> M S) s :
  (forall x s, appends_reads (body x s)) -> appends_reads (for_each_io xs body s).
Proof.
  intros Hbody; revert s; induction xs as [|x xs IH]; intros s; cbn.
  - intros f. apply only_reads_refl.
  - apply appends_reads_bind; auto.
Qed.

Lemma appends_reads_num hint : appends_reads (BinaryStlModel__num hint).
Proof.
  unfold BinaryStlModel__num.
  destruct (negb _); [intros f; apply only_reads_refl|].
  destruct (if String.eqb hint "uint" then _ else _) as [form bits].
  apply appends_reads_bind; [apply appends_reads_read|].
  intros s. apply appends_reads_pure.
Qed.

Lemma appends_reads_vector : appends_reads BinaryStlModel__vector.
Proof.
  apply appends_reads_for_each_io. intros _ acc.
  apply appends_reads_bind; [apply appends_reads_num|].
  intros x f. apply only_reads_refl.
Qed.

Lemma appends_reads_triangle verts : appends_reads (BinaryStlModel_triangle verts).
Proof.
  unfold BinaryStlModel_triangle.
  apply appends_reads_bind; [apply appends_reads_vector | intros _].
  apply appends_reads_bind.
  - apply appends_reads_for_each_io. intros _ vs.
    apply appends_reads_bind; [apply appends_reads_vector|].
    intros v f. apply only_reads_refl.
  - intros vs. apply appends_reads_bind; [apply appends_reads_num|].
    intros _ f. apply only_reads_refl.
Qed.

(** [BinaryStlModel] seeks once, to 80, and then only reads. *)
Lemma BinaryStlModel_trace mem_limit f :
  exists t,
    ops (snd (BinaryStlModel mem_limit f)) = (ops f ++ OpSeek 80 :: t)%list /\
    forallb is_read t = true.
Proof.
  unfold BinaryStlModel. rewrite ThreeDee_init_summarize. cbn [snd].
  set (rest := (let! triangle_count := BinaryStlModel__num "uint" in
                let! idx := lift (py_range mem_limit triangle_count) in
                for_each_io idx (fun _ verts => BinaryStlModel_triangle verts) [])%io).
  assert (Hrest : appends_reads rest).
  { subst rest.
    apply appends_reads_bind; [apply appends_reads_num | intros n].
    apply appends_reads_bind; [apply appends_reads_pure | intros idx].
    apply appends_reads_for_each_io. intros _ vs. apply appends_reads_triangle. }
  change (BinaryStlModel_load mem_limit f)
    with (rest (mkFile (data f) 80 (ops f ++ [OpSeek 80]))).
  destruct (Hrest (mkFile (data f) 80 (ops f ++ [OpSeek 80]))) as (t & Ht & Hreads).
  exists t. rewrite Ht. cbn [ops]. rewrite <- app_assoc. now split.
Qed.

Lemma seeks_only_to_80_refl l : seeks_only_to_80 l l.
Proof. exists []. rewrite app_nil_r. split; [reflexivity | intros n []]. Qed.

Lemma seeks_only_to_80_trans a b c :
  seeks_only_to_80 a b -> seeks_only_to_80 b c -> seeks_only_to_80 a c.
Proof.
  intros (t & -> & Ht) (u & -> & Hu). exists (t ++ u)%list.
  rewrite <- app_assoc. split; [reflexivity|].
  intros n Hin. apply in_app_or in Hin as [Hin | Hin]; auto.
Qed.

Lemma ObjModel_seeks f : seeks_only_to_80 (ops f) (ops (snd (ObjModel f))).
Proof.
  destruct (ObjModel_iterates f) as [_ [k ->]].
  exists (repeat OpNext k). split; [reflexivity|].
  intros n Hin. apply repeat_spec in Hin. discriminate.
Qed.

Lemma BinaryStlModel_seeks mem_limit f :
  seeks_only_to_80 (ops f) (ops (snd (BinaryStlModel mem_limit f))).
Proof.
  destruct (BinaryStlModel_trace mem_limit f) as (t & -> & Hreads).
  exists (OpSeek 80 :: t). split; [reflexivity|].
  intros n [[= <-] | Hin]; [reflexivity|].
  rewrite forallb_forall in Hreads. specialize (Hreads _ Hin). discriminate.
Qed.

Lemma try_except_seeks {A B} (g : A -> B) (m : M A) handled (k : M B) :
  (forall f, seeks_only_to_80 (ops f) (ops (snd (m f)))) ->
  (forall f, seeks_only_to_80 (ops f) (ops (snd (k f)))) ->
  forall f, seeks_only_to_80 (ops f) (ops (snd (try_except (fmap g m) handled k f))).
Proof.
  intros Hm Hk f. unfold try_except, fmap, bind, ret. specialize (Hm f).
  destruct (m f) as [[a|e] f1]; cbn [snd] in *; [assumption|].
  destruct (handled e); [|assumption].
  exact (seeks_only_to_80_trans _ _ _ Hm (Hk f1)).
Qed.

(** Whatever the hint, [auto_detect] performs no seek but the
    [seek(80)] of the binary loader. *)
Lemma auto_detect_seeks mem_limit hint f :
  seeks_only_to_80 (ops f) (ops (snd (auto_detect mem_limit hint f))).
Proof.
  assert (Hfinal : forall g, seeks_only_to_80 (ops g) (ops (snd (@raise model unrecognized g))))
    by (intros g; apply seeks_only_to_80_refl).
  assert (Hstl : forall g,
             seeks_only_to_80 (ops g) (ops (snd (auto_detect_stl mem_limit hint g)))).
  { intros g. unfold auto_detect_stl.
    destruct (hint_eq hint "stl" || hint_not hint); [|apply Hfinal].
    apply try_except_seeks; [apply ObjModel_seeks|].
    apply try_except_seeks; [apply BinaryStlModel_seeks | exact Hfinal]. }
  unfold auto_detect.
  destruct (hint_eq hint "obj" || hint_not hint); [|apply Hstl].
  apply try_except_seeks; [apply ObjModel_seeks | exact Hstl].
Qed.

(** At the end of the stream [ObjModel] makes the one step that ends the
    iteration and raises the empty-model error. *)
Lemma ObjModel_at_end f :
  remaining f = EmptyString ->
  ObjModel f = (Raise (ThreeDeeParseError "Empyt model."),
                mkFile (data f) (pos f) (ops f ++ [OpNext])).
Proof.
  intros Hrem. unfold ObjModel. apply ThreeDee_init_empty.
  unfold ObjModel_load. rewrite Hrem. reflexivity.
Qed.

(** After a failed first attempt and with no hint, the file object
    [auto_detect] returns is the one the binary loader leaves when it is
    started right after the second, empty, text attempt. *)
Lemma auto_detect_no_hint_state mem_limit hint f msg f1 :
  ObjModel f = (Raise (ThreeDeeParseError msg), f1) ->
  hint_not hint = true ->
  snd (auto_detect mem_limit hint f) =
  snd (BinaryStlModel mem_limit (mkFile (data f1) (pos f1) (ops f1 ++ [OpNext]))).
Proof.
  intros Hobj Hhint.
  destruct (ObjModel_parse_error _ _ _ Hobj) as [Hload _].
  destruct (ObjModel_load_state _ _ _ Hload) as [_ Hrem].
  unfold auto_detect. rewrite Hhint, orb_true_r.
  unfold try_except at 1, fmap at 1, bind at 1. rewrite Hobj.
  cbn [is_ThreeDeeParseError].
  unfold auto_detect_stl. rewrite Hhint, orb_true_r.
  unfold try_except at 1, fmap at 1, bind at 1.
  rewrite (ObjModel_at_end f1 Hrem). cbn [is_ThreeDeeParseError].
  unfold try_except, fmap, bind, ret, raise.
  destruct (BinaryStlModel mem_limit _) as [[m|e] g]; cbn [snd]; [reflexivity|].
  now destruct (is_ThreeDeeParseError e || is_MemoryError e).
Qed.

(** * The claim on rewinding *)

(** C3, the claim as it stands, fails: with no hint and the stream
    ["f 1 2 3\n"] the first attempt fails, and the whole run of
    [auto_detect] performs these operations and no other: two steps of
    line iteration for the first attempt (the line, then the end), one for
    the ASCII attempt that follows, then the binary loader's [seek(80)]
    and its read of the count.  No [seek(0)] occurs, and the ASCII attempt
    is handed no line although the stream holds one from its beginning. *)
Lemma C3_counterexample :
  let f := open_file ("f 1 2 3" ++ LF) in
  fst (ObjModel f) = Raise (ThreeDeeParseError "Empyt model.") /\
  PyStr.readlines (data f) = ["f 1 2 3" ++ LF] /\
  ops (snd (auto_detect 16 None f)) =
    [OpNext; OpNext; OpNext; OpSeek 80; OpRead 4] /\
  ~ In (OpSeek 0) (ops (snd (auto_detect 16 None f))).
Proof.
  vm_compute. repeat split.
  intros H. repeat (destruct H as [H | H]; [discriminate H|]). exact H.
Qed.

(** C3, amended: [auto_detect] never rewinds.  Whatever the hint and the
    stream, the only seek [auto_detect] performs is the [seek(80)] of the
    binary loader.  When the first [ObjModel] attempt fails with the
    module's exception and there is no hint, the operations of the whole
    run are: the line iteration of the first attempt, which reads the
    stream to its end; a single step of iteration for the ASCII attempt
    that follows, which starts where the first stopped, is handed no line
    and fails as an empty model; then [seek(80)] and sized reads.  The
    next candidate runs on the file object as the failed one left it, and
    the result is the binary loader's result on the stream: the binary
    loader seeks to the absolute offset 80 itself. *)
Theorem C3_auto_detect_never_rewinds mem_limit hint f msg f1 :
  ObjModel f = (Raise (ThreeDeeParseError msg), f1) ->
  hint_not hint = true ->
  (exists t,
      ops (snd (auto_detect mem_limit hint f)) =
        (ops f ++ repeat OpNext (S (length (PyStr.readlines (remaining f))))
               ++ OpNext :: OpSeek 80 :: t)%list /\
      forallb is_read t = true) /\
  (forall hint' g,
      seeks_only_to_80 (ops g) (ops (snd (auto_detect mem_limit hint' g)))) /\
  fst (auto_detect mem_limit hint f) =
    match fst (BinaryStlModel mem_limit f) with
    | Ok m => Ok (a_BinaryStlModel m)
    | Raise e => Raise (if is_ThreeDeeParseError e || is_MemoryError e
                        then unrecognized else e)
    end /\
  auto_detect mem_limit hint f = auto_detect_stl mem_limit hint f1 /\
  data f1 = data f /\
  pos f1 = (pos f + String.length (remaining f))%nat /\
  ops f1 = (ops f ++ repeat OpNext (S (length (PyStr.readlines (remaining f)))))%list /\
  remaining f1 = EmptyString /\
  fst (ObjModel f1) = Raise (ThreeDeeParseError "Empyt model.") /\
  fst (BinaryStlModel mem_limit f1) = fst (BinaryStlModel mem_limit f).
Proof.
  intros Hobj Hhint.
  assert (Hstl : hint_eq hint "stl" || hint_not hint = true)
    by (rewrite Hhint; apply orb_true_r).
  destruct (ObjModel_parse_error _ _ _ Hobj) as [Hload _].
  destruct (ObjModel_load_state _ _ _ Hload) as [Hd Hrem].
  pose proof Hload as Hstate. unfold ObjModel_load in Hstate.
  apply ObjModel_load_lines_state in Hstate as (_ & Hp & Ho).
  rewrite readlines_length in Hp.
  split.
  { rewrite (auto_detect_no_hint_state _ _ _ _ _ Hobj Hhint).
    destruct (BinaryStlModel_trace mem_limit
                (mkFile (data f1) (pos f1) (ops f1 ++ [OpNext])))
      as (t & Ht & Hreads).
    exists t. split; [|exact Hreads].
    rewrite Ht. cbn [ops]. rewrite Ho. rewrite <- !app_assoc. reflexivity. }
  split; [intros hint' g; apply auto_detect_seeks|].
  split.
  { rewrite (auto_detect_no_hint_after_failure _ _ _ _ _ Hobj Hhint).
    exact (auto_detect_stl_after_failure _ _ _ _ _ Hobj Hstl). }
  split.
  { unfold auto_detect. rewrite Hhint, orb_true_r.
    unfold try_except at 1, fmap, bind. rewrite Hobj. reflexivity. }
  repeat split; try assumption.
  - now apply ObjModel_nothing_left.
  - now apply BinaryStlModel_position_independent.
Qed.

Lemma C3_witness :
  let f := open_file ("f 1 2 3" ++ LF) in
  let f1 := mkFile ("f 1 2 3" ++ LF) 8 [OpNext; OpNext] in
  (exists t,
      ops (snd (auto_detect 16 None f)) =
        (ops f ++ repeat OpNext (S (length (PyStr.readlines (remaining f))))
               ++ OpNext :: OpSeek 80 :: t)%list /\
      forallb is_read t = true) /\
  (forall hint' g,
      seeks_only_to_80 (ops g) (ops (snd (auto_detect 16 hint' g)))) /\
  fst (auto_detect 16 None f) =
    match fst (BinaryStlModel 16 f) with
    | Ok m => Ok (a_BinaryStlModel m)
    | Raise e => Raise (if is_ThreeDeeParseError e || is_MemoryError e
                        then unrecognized else e)
    end /\
  auto_detect 16 None f = auto_detect_stl 16 None f1 /\
  data f1 = data f /\
  pos f1 = (pos f + String.length (remaining f))%nat /\
  ops f1 = (ops f ++ repeat OpNext (S (length (PyStr.readlines (remaining f)))))%list /\
  remaining f1 = EmptyString /\
  fst (ObjModel f1) = Raise (ThreeDeeParseError "Empyt model.") /\
  fst (BinaryStlModel 16 f1) = fst (BinaryStlModel 16 f).
Proof.
  apply (C3_auto_detect_never_rewinds
           16 None (open_file ("f 1 2 3" ++ LF)) "Empyt model.").
  - vm_compute. reflexivity.
  - reflexivity.
Defined.
